(** * OpenSprinkler.py: the decoding layer, embedded and verified

    The development follows [OpenSprinkler.py]: the JSON values the
    controller reports, Python's exceptions as an error monad over the
    mutated objects, then the three classes [OpenSprinklerProgram],
    [OpenSprinklerStation] and [OpenSprinklerController]. *)

From Stdlib Require Import ZArith String List Lia.
From stdpp Require Import base strings gmap list.

Local Open Scope string_scope.
Local Open Scope list_scope.

(** ** Values of the snapshot *)

(** What [json.loads] hands to the constructor.  Numbers are the integers
    the device's API reports: there is no floating-point value here, and
    nothing below speaks of one.  Texts are ASCII, one character a byte. *)
#[warnings="-register-all"]
Inductive pyval : Type :=
| PNone
| PBool (b : bool)
| PInt (z : Z)
| PStr (s : string)
| PList (l : list pyval)
| PDict (d : list (string * pyval)).

(** The snapshot: the JSON object of the "/ja" request, with an object per
    section ("settings", "options", "stations", "status", "programs"), each
    keyed by abbreviation.  Sections are objects; what they hold is any
    value. *)
Abbreviation section := (gmap string pyval).
Abbreviation snapshot := (gmap string (gmap string pyval)).

(** The exceptions the decoding can meet. *)
Inductive exn : Type :=
| KeyError (key : pyval)
| IndexError
| TypeError
| NameError (ident : string).

Inductive outcome (A : Type) : Type :=
| Returned (a : A)
| Raised (e : exn).
Arguments Returned {A} a.
Arguments Raised {A} e.

(** ** Python's operators on these values *)

Module Py.

(** Truth value of an object, as [if v] tests it. *)
Definition truthy (v : pyval) : bool :=
  match v with
  | PNone => false
  | PBool b => b
  | PInt z => negb (z =? 0)%Z
  | PStr s => negb (String.eqb s EmptyString)
  | PList l => match l with [] => false | _ => true end
  | PDict d => match d with [] => false | _ => true end
  end.

(** The integer an [int] or a [bool] stands for in arithmetic. *)
Definition as_int (v : pyval) : option Z :=
  match v with
  | PInt z => Some z
  | PBool b => Some (if b then 1 else 0)%Z
  | _ => None
  end.

(** [v & k] for an integer [k]. *)
Definition and_ (v : pyval) (k : Z) : outcome Z :=
  match as_int v with
  | Some z => Returned (Z.land z k)
  | None => Raised TypeError
  end.

(** [v > 0]. *)
Definition gt0 (v : pyval) : outcome bool :=
  match as_int v with
  | Some z => Returned (0 <? z)%Z
  | None => Raised TypeError
  end.

(** [v[i]] for a non-negative integer [i]; on a text, the character at
    [i] (ASCII texts). *)
Definition getitem (v : pyval) (i : nat) : outcome pyval :=
  match v with
  | PList l =>
      match l !! i with
      | Some x => Returned x
      | None => Raised IndexError
      end
  | PStr s =>
      match String.get i s with
      | Some c => Returned (PStr (String c EmptyString))
      | None => Raised IndexError
      end
  | PDict _ => Raised (KeyError (PInt (Z.of_nat i)))
  | _ => Raised TypeError
  end.

(** [d[k]] on an object of the snapshot. *)
Definition lookup_key {V : Type} (d : gmap string V) (k : string) : outcome V :=
  match d !! k with
  | Some v => Returned v
  | None => Raised (KeyError (PStr k))
  end.

(** The items [for x in v] goes through; on a text, its characters (ASCII
    texts). *)
Definition iter (v : pyval) : outcome (list pyval) :=
  match v with
  | PList l => Returned l
  | PStr s => Returned (map (fun c => PStr (String c EmptyString)) (list_ascii_of_string s))
  | PDict d => Returned (map (fun kv => PStr (fst kv)) d)
  | _ => Raised TypeError
  end.

(** [enumerate(l)]. *)
Definition enumerate {A : Type} (l : list A) : list (nat * A) :=
  combine (seq 0 (length l)) l.

End Py.

(** ** State and exceptions

    A method runs on the objects it mutates and either returns or raises;
    what it has mutated before raising stays mutated. *)

Definition M (S A : Type) : Type := S -> outcome A * S.

Section Monad.
Context {S : Type}.

Definition ret {A : Type} (a : A) : M S A := fun s => (Returned a, s).

Definition bind {A B : Type} (m : M S A) (k : A -> M S B) : M S B :=
  fun s =>
    match m s with
    | (Returned a, s') => k a s'
    | (Raised e, s') => (Raised e, s')
    end.

Definition raise {A : Type} (e : exn) : M S A := fun s => (Raised e, s).

Definition lift {A : Type} (o : outcome A) : M S A := fun s => (o, s).

Definition gets {A : Type} (f : S -> A) : M S A := fun s => (Returned (f s), s).

Definition modify (f : S -> S) : M S unit := fun s => (Returned tt, f s).

(** [try: body except: handler]. *)
Definition try_except {A : Type} (body : M S A) (handler : exn -> M S A) : M S A :=
  fun s =>
    match body s with
    | (Returned a, s') => (Returned a, s')
    | (Raised e, s') => handler e s'
    end.

(** [for x in l: body x]. *)
Fixpoint for_each {A : Type} (l : list A) (body : A -> M S unit) : M S unit :=
  match l with
  | [] => ret tt
  | x :: rest => bind (body x) (fun _ => for_each rest body)
  end.

(** [idx = i; while idx < n: body idx; idx += 1], with [remaining] the
    number of times the test still succeeds ([n - i]). *)
Fixpoint count_up (remaining : nat) (idx : nat) (body : nat -> M S unit) : M S unit :=
  match remaining with
  | O => ret tt
  | Datatypes.S r => bind (body idx) (fun _ => count_up r (Datatypes.S idx) body)
  end.

(** [idx = 0; while idx < bound: ...]: the comparison raises on a bound
    that is neither an [int] nor a [bool], and is true [bound] times
    otherwise. *)
Definition while_idx_lt (bound : pyval) (body : nat -> M S unit) : M S unit :=
  match Py.as_int bound with
  | Some n => count_up (Z.to_nat n) 0 body
  | None => raise TypeError
  end.

End Monad.

Declare Scope py_scope.
Delimit Scope py_scope with py.
Notation "'let!' x ':=' m 'in' k" := (bind m (fun x => k))
  (at level 10, x name, m at level 100, k at level 200) : py_scope.
Notation "m ';;' k" := (bind m (fun _ => k))
  (at level 100, k at level 200, right associativity) : py_scope.
Local Open Scope py_scope.

(** ** The property registry *)

(** One entry of [controller_properties]: a dict with the keys 'name',
    'source', 'val' and either 'abbrev' or, for derived entries, 'formula'. *)
Record property : Type := mkProperty {
  p_name : string;
  p_source : string;
  p_abbrev : option string;
  p_formula : option string;
  p_val : pyval
}.

Definition raw (name source abbrev : string) (val : pyval) : property :=
  mkProperty name source (Some abbrev) None val.

Definition derived (name formula : string) (val : pyval) : property :=
  mkProperty name "derived" None (Some formula) val.

(** [prop['val'] = v]. *)
Definition set_val (v : pyval) (prop : property) : property :=
  mkProperty (p_name prop) (p_source prop) (p_abbrev prop) (p_formula prop) v.

(** The table [__init__] assigns to [self.controller_properties]. *)
Definition property_table : list property :=
  [ raw "device_time" "settings" "devt" (PInt 0);
    raw "num_boards" "settings" "nbrd" (PInt 0);
    raw "enabled" "settings" "en" (PInt 0);
    raw "rain_delay" "settings" "rd" (PInt 0);
    raw "rain_sensor_status" "settings" "rs" (PInt 0);
    raw "rain_delay_stop_time" "settings" "rdst" (PInt 0);
    raw "location" "settings" "loc" (PStr EmptyString);
    raw "wunderground_api_key" "settings" "wtkey" (PStr EmptyString);
    raw "sunrise" "settings" "sunrise" (PInt 0);
    raw "sunset" "settings" "sunset" (PInt 0);
    raw "external_ip_address" "settings" "eip" (PInt 0);
    raw "last_weather_call" "settings" "lwc" (PInt 0);
    raw "last_successful_weather_call" "settings" "lswc" (PInt 0);
    raw "last_run_record" "settings" "lrun" (PInt 0);
    raw "weather_options" "settings" "wto" (PDict []);
    raw "firmware_version" "options" "fwv" (PInt 0);
    raw "firmware_minor_version" "options" "fwm" (PInt 0);
    raw "time_zone" "options" "tz" (PInt 0);
    raw "ntp_synch_flag" "options" "ntp" (PInt 0);
    raw "use_dhcp_flag" "options" "dhcp" (PInt 0);
    raw "ip1" "options" "ip1" (PInt 0);
    raw "ip2" "options" "ip2" (PInt 0);
    raw "ip3" "options" "ip3" (PInt 0);
    raw "ip4" "options" "ip4" (PInt 0);
    raw "gw1" "options" "gw1" (PInt 0);
    raw "gw2" "options" "gw2" (PInt 0);
    raw "gw3" "options" "gw3" (PInt 0);
    raw "gw4" "options" "gw4" (PInt 0);
    raw "ntp1" "options" "ntp1" (PInt 0);
    raw "ntp2" "options" "ntp2" (PInt 0);
    raw "ntp3" "options" "ntp3" (PInt 0);
    raw "ntp4" "options" "ntp4" (PInt 0);
    raw "hp0" "options" "hp0" (PInt 0);
    raw "hp1" "options" "hp1" (PInt 0);
    raw "hardware_version" "options" "hwv" (PInt 0);
    raw "hardware_type" "options" "hwt" (PInt 0);
    raw "num_expansion_boards" "options" "ext" (PInt 0);
    raw "station_delay_time" "options" "sdt" (PInt 0);
    raw "master_station_1" "options" "mas" (PInt 0);
    raw "master_station_2" "options" "mas2" (PInt 0);
    raw "master_station_1_on_delay" "options" "mton" (PInt 0);
    raw "master_station_2_on_delay" "options" "mton2" (PInt 0);
    raw "master_station_1_off_delay" "options" "mtof" (PInt 0);
    raw "master_station_2_off_delay" "options" "mtof2" (PInt 0);
    raw "use_rain_sensor" "options" "urs" (PInt 0);
    raw "rain_sensor_type" "options" "rso" (PInt 0);
    raw "water_level" "options" "wl" (PInt 0);
    raw "operation_enabled" "options" "den" (PInt 0);
    raw "ignore_password" "options" "ipas" (PInt 0);
    raw "device_id" "options" "devid" (PInt 0);
    raw "lcd_contrast" "options" "con" (PInt 0);
    raw "lcd_backlight" "options" "lit" (PInt 0);
    raw "lcd_dimming" "options" "dim" (PInt 0);
    raw "boost_time" "options" "bst" (PInt 0);
    raw "weather_adjustment_method" "options" "uwt" (PInt 0);
    raw "enable_logging" "options" "lg" (PInt 0);
    raw "fpr0" "options" "fpr0" (PInt 0);
    raw "fpr1" "options" "fpr1" (PInt 0);
    raw "remote_extension_mode" "options" "re" (PInt 0);
    raw "detected_extension_boards" "options" "dexp" (PInt 0);
    raw "max_extension_boards" "options" "mexp" (PInt 0);
    raw "station_names" "stations" "snames" (PList []);
    raw "station_status" "status" "sn" (PList []);
    raw "num_stations" "status" "nstations" (PInt 0);
    raw "num_programs" "programs" "nprogs" (PInt 0);
    raw "max_programs" "programs" "mnp" (PInt 0);
    raw "max_start_times" "programs" "mnst" (PInt 0);
    raw "program_name_size" "programs" "pnsize" (PInt 0);
    derived "ntp_ipv4_address" EmptyString (PStr EmptyString);
    derived "dhcp_ipv4_address" EmptyString (PStr EmptyString);
    derived "gw_ipv4_address" EmptyString (PStr EmptyString);
    derived "port_number" "hp1 << 8 + hp0" (PInt 0);
    derived "flow_pulse_rate" "fpr1 << 8 + fpr0" (PStr EmptyString) ].

(** The body of the resolving loop for one entry.  [prop['source'] is not
    'derived'] compares two literals of one code object, which are one
    string object, so the test is the comparison of the texts.
    [prop['abbrev']] raises on an entry without that key. *)
Definition resolve_property (myDict : snapshot) (prop : property) : outcome property :=
  if negb (String.eqb (p_source prop) "derived") then
    let sourceName := p_source prop in
    match p_abbrev prop with
    | None => Raised (KeyError (PStr "abbrev"))
    | Some abbrevName =>
        match myDict !! sourceName with
        | Some sec =>
            match sec !! abbrevName with
            | Some v => Returned (set_val v prop)
            | None => Returned prop
            end
        | None => Returned prop
        end
    end
  else Returned prop.

(** [for prop in self.controller_properties: ...], entries updated in place. *)
Fixpoint resolve_properties (myDict : snapshot) (props : list property)
  : outcome (list property) :=
  match props with
  | [] => Returned []
  | prop :: rest =>
      match resolve_property myDict prop with
      | Raised e => Raised e
      | Returned prop' =>
          match resolve_properties myDict rest with
          | Raised e => Raised e
          | Returned rest' => Returned (prop' :: rest')
          end
      end
  end.

(** [getProperty]: both branches of the [if] leave the loop in its first
    round; the name [UnknownPropertyError] is bound nowhere in the module
    (the class is [OS_UnknownPropertyError]), so evaluating it raises
    [NameError].  An empty list falls through and returns [None]. *)
Definition getProperty (props : list property) (var_name : string) : outcome pyval :=
  match props with
  | [] => Returned PNone
  | prop_item :: _ =>
      if String.eqb (p_name prop_item) var_name
      then Returned (p_val prop_item)
      else Raised (NameError "UnknownPropertyError")
  end.

(** [getProperties]: the {name, val} listing, in table order. *)
Definition getProperties (props : list property) : list (string * pyval) :=
  map (fun prop_item => (p_name prop_item, p_val prop_item)) props.

(** [prop_item['val'] = var_value], the statement under [try]. *)
Definition store_val (var_value : pyval) (prop_item : property) : outcome property :=
  Returned (set_val var_value prop_item).

(** [setProperty]: every entry of that name is overwritten; the function
    returns ['ERROR'] from the handler and [None] at the end of the loop.
    The result is what the call returns and the list after the call. *)
Fixpoint setProperty (props : list property) (var_name : string) (var_value : pyval)
  : outcome pyval * list property :=
  match props with
  | [] => (Returned PNone, [])
  | prop_item :: rest =>
      if String.eqb (p_name prop_item) var_name then
        match store_val var_value prop_item with
        | Returned prop_item' =>
            let (r, rest') := setProperty rest var_name var_value in
            (r, prop_item' :: rest')
        | Raised _ => (Returned (PStr "ERROR"), prop_item :: rest)
        end
      else
        let (r, rest') := setProperty rest var_name var_value in
        (r, prop_item :: rest')
  end.

(** ** OpenSprinklerProgram *)

(** An entry of [program_schedule]: [{day_name: is_scheduled}] in a weekday
    schedule, [{'interval': .., 'delay': ..}] in an interval schedule. *)
Inductive schedule_entry : Type :=
| DayEntry (day_name : string) (is_scheduled : bool)
| IntervalEntry (interval delay : pyval).

(** An entry of [program_repeating_start_times]. *)
Record start_time : Type := mkStartTime {
  basis : string;
  sign : string;
  offset : Z
}.

(** The attributes of a program object. *)
Record Program : Type := mkProgram {
  program_name : pyval;
  program_enabled : bool;
  program_use_weather_adjustment : bool;
  program_restriction : string;
  program_schedule_type : string;
  program_start_time_type : string;
  program_schedule : list schedule_entry;
  program_fixed_start_times : list pyval;
  program_repeating_start_times : list start_time;
  program_zone_durations : pyval
}.

Module OpenSprinklerProgram.

Definition week : list string :=
  ["Monday"; "Tuesday"; "Wednesday"; "Thursday"; "Friday"; "Saturday"; "Sunday"].

(** The values bound in the class body, which an instance reads until it
    assigns its own. *)
Definition class_attributes : Program :=
  mkProgram (PStr EmptyString) false false EmptyString EmptyString EmptyString
            [] [] [] (PList []).

(** Attribute assignments [self.x = v]. *)
Definition assign_name v (p : Program) : Program :=
  mkProgram v (program_enabled p) (program_use_weather_adjustment p)
    (program_restriction p) (program_schedule_type p) (program_start_time_type p)
    (program_schedule p) (program_fixed_start_times p)
    (program_repeating_start_times p) (program_zone_durations p).
Definition assign_enabled v (p : Program) : Program :=
  mkProgram (program_name p) v (program_use_weather_adjustment p)
    (program_restriction p) (program_schedule_type p) (program_start_time_type p)
    (program_schedule p) (program_fixed_start_times p)
    (program_repeating_start_times p) (program_zone_durations p).
Definition assign_use_weather_adjustment v (p : Program) : Program :=
  mkProgram (program_name p) (program_enabled p) v
    (program_restriction p) (program_schedule_type p) (program_start_time_type p)
    (program_schedule p) (program_fixed_start_times p)
    (program_repeating_start_times p) (program_zone_durations p).
Definition assign_restriction v (p : Program) : Program :=
  mkProgram (program_name p) (program_enabled p) (program_use_weather_adjustment p)
    v (program_schedule_type p) (program_start_time_type p)
    (program_schedule p) (program_fixed_start_times p)
    (program_repeating_start_times p) (program_zone_durations p).
Definition assign_schedule_type v (p : Program) : Program :=
  mkProgram (program_name p) (program_enabled p) (program_use_weather_adjustment p)
    (program_restriction p) v (program_start_time_type p)
    (program_schedule p) (program_fixed_start_times p)
    (program_repeating_start_times p) (program_zone_durations p).
Definition assign_start_time_type v (p : Program) : Program :=
  mkProgram (program_name p) (program_enabled p) (program_use_weather_adjustment p)
    (program_restriction p) (program_schedule_type p) v
    (program_schedule p) (program_fixed_start_times p)
    (program_repeating_start_times p) (program_zone_durations p).
Definition assign_schedule v (p : Program) : Program :=
  mkProgram (program_name p) (program_enabled p) (program_use_weather_adjustment p)
    (program_restriction p) (program_schedule_type p) (program_start_time_type p)
    v (program_fixed_start_times p)
    (program_repeating_start_times p) (program_zone_durations p).
Definition assign_fixed_start_times v (p : Program) : Program :=
  mkProgram (program_name p) (program_enabled p) (program_use_weather_adjustment p)
    (program_restriction p) (program_schedule_type p) (program_start_time_type p)
    (program_schedule p) v
    (program_repeating_start_times p) (program_zone_durations p).
Definition assign_repeating_start_times v (p : Program) : Program :=
  mkProgram (program_name p) (program_enabled p) (program_use_weather_adjustment p)
    (program_restriction p) (program_schedule_type p) (program_start_time_type p)
    (program_schedule p) (program_fixed_start_times p)
    v (program_zone_durations p).
Definition assign_zone_durations v (p : Program) : Program :=
  mkProgram (program_name p) (program_enabled p) (program_use_weather_adjustment p)
    (program_restriction p) (program_schedule_type p) (program_start_time_type p)
    (program_schedule p) (program_fixed_start_times p)
    (program_repeating_start_times p) v.

(** A setter: the assignment under [try], the handler only logs. *)
Definition setter (assign : Program -> Program) : M Program unit :=
  try_except (modify assign) (fun _ => ret tt).

(** *** Getters *)
Definition getName : M Program pyval := gets program_name.
Definition getEnabled : M Program bool := gets program_enabled.
Definition getWxAdjustment : M Program bool := gets program_use_weather_adjustment.
Definition getStartTimeType : M Program string := gets program_start_time_type.
Definition getScheduleType : M Program string := gets program_schedule_type.
Definition getSchedule : M Program (list schedule_entry) := gets program_schedule.
Definition getDurations : M Program pyval := gets program_zone_durations.

(** [getStartTimes]: the fixed list when it is not empty, else the
    repeating one. *)
Definition getStartTimes (p : Program) : list pyval + list start_time :=
  if (0 <? length (program_fixed_start_times p))%nat
  then inl (program_fixed_start_times p)
  else inr (program_repeating_start_times p).

(** *** Setters *)
Definition setName (progname : pyval) := setter (assign_name progname).
Definition setEnabled (is_enabled : bool) := setter (assign_enabled is_enabled).
Definition setWxAdjustment (wxadj : bool) := setter (assign_use_weather_adjustment wxadj).
Definition setRestrictions (restriction : string) := setter (assign_restriction restriction).
Definition setScheduleType (stype : string) := setter (assign_schedule_type stype).
Definition setStartTimeType (timetype : string) := setter (assign_start_time_type timetype).
Definition setDurations (durations : pyval) := setter (assign_zone_durations durations).

(** The loop of [setWeekdaySchedule] over [enumerate(self.week)], building
    the local list [schedule]. *)
Fixpoint weekday_entries (d0 : pyval) (days : list (nat * string))
  : outcome (list schedule_entry) :=
  match days with
  | [] => Returned []
  | (day_index, day_name) :: rest =>
      match Py.and_ d0 (2 ^ Z.of_nat day_index) with
      | Raised e => Raised e
      | Returned bit =>
          let is_scheduled := negb (bit =? 0)%Z in
          match weekday_entries d0 rest with
          | Raised e => Raised e
          | Returned entries => Returned (DayEntry day_name is_scheduled :: entries)
          end
      end
  end.

Definition setWeekdaySchedule (d0 : pyval) : M Program unit :=
  let! schedule := lift (weekday_entries d0 (Py.enumerate week)) in
  setter (assign_schedule schedule).

(** [setIntervalSchedule(self, d0, d1)]: the first argument is stored as
    the delay, the second as the interval. *)
Definition setIntervalSchedule (d0 d1 : pyval) : M Program unit :=
  let schedule := [IntervalEntry d1 d0] in
  setter (assign_schedule schedule).

(** [setSchedule(self, pstype, d0, d1)]. *)
Definition setSchedule (pstype : string) (d0 d1 : pyval) : M Program unit :=
  if String.eqb pstype "Weekday"
  then setWeekdaySchedule d0
  else setIntervalSchedule d1 d0.

(** [setFixedStartTimes(self, startTimes)]: the loop reads [sTimes], which
    is neither a parameter nor a global of the module. *)
Definition setFixedStartTimes (startTimes : pyval) : M Program unit :=
  modify (assign_fixed_start_times []) ;;
  modify (assign_repeating_start_times []) ;;
  raise (NameError "sTimes").

(** The body of the loop of [setRepeatingStartTimes] for one [sTime]. *)
Definition repeating_step (sTime : pyval) : M Program unit :=
  let! positive := lift (Py.gt0 sTime) in
  if positive : bool then
    let! b13 := lift (Py.and_ sTime 8192) in
    let! start_basis :=
      (if negb (b13 =? 0)%Z then ret "Sunset"
       else
         let! b12 := lift (Py.and_ sTime 4096) in
         if negb (b12 =? 0)%Z then ret "Sunrise" else ret "Midnight") in
    let! b11 := lift (Py.and_ sTime 2048) in
    let sign := if negb (b11 =? 0)%Z then "plus" else "minus" in
    let! offset := lift (Py.and_ sTime 2047) in
    let start_time := mkStartTime start_basis sign offset in
    try_except
      (modify (fun p =>
         assign_repeating_start_times (program_repeating_start_times p ++ [start_time]) p))
      (fun _ => ret tt)
  else ret tt.

Definition setRepeatingStartTimes (sTimes : pyval) : M Program unit :=
  modify (assign_fixed_start_times []) ;;
  modify (assign_repeating_start_times []) ;;
  let! items := lift (Py.iter sTimes) in
  for_each items repeating_step.

Definition setStartTimes (psttype : string) (sTimes : pyval) : M Program unit :=
  if String.eqb psttype "Fixed"
  then setFixedStartTimes sTimes
  else setRepeatingStartTimes sTimes.

(** [__init__], first statements: the name and the five fields decoded
    from [flags]. *)
Definition init_flags (pname flags : pyval) : M Program unit :=
  setName pname ;;
  let! f1 := lift (Py.and_ flags 1) in
  setEnabled (negb (f1 =? 0)%Z) ;;
  let! f2 := lift (Py.and_ flags 2) in
  setWxAdjustment (negb (f2 =? 0)%Z) ;;
  let! f4 := lift (Py.and_ flags 4) in
  let! restriction :=
    (if negb (f4 =? 0)%Z then ret "Odd"
     else
       let! f8 := lift (Py.and_ flags 8) in
       if negb (f8 =? 0)%Z then ret "Even" else ret "None") in
  setRestrictions restriction ;;
  let! f16 := lift (Py.and_ flags 16) in
  let! interval_bits :=
    (if negb (f16 =? 0)%Z then ret true
     else
       let! f32 := lift (Py.and_ flags 32) in
       ret (negb (f32 =? 0)%Z)) in
  setScheduleType (if negb interval_bits then "Weekday" else "Interval") ;;
  let! f64 := lift (Py.and_ flags 64) in
  setStartTimeType (if negb (f64 =? 0)%Z then "Fixed" else "Repeating").

(** [__init__], last statements: schedule, start times, durations. *)
Definition init_fields (days0 days1 sTimes durs : pyval) : M Program unit :=
  let! stype := getScheduleType in
  setSchedule stype days0 days1 ;;
  let! timetype := getStartTimeType in
  setStartTimes timetype sTimes ;;
  setDurations durs.

(** [__init__]: everything under one [try] whose handler only logs. *)
Definition init (pname flags days0 days1 sTimes durs : pyval) : M Program unit :=
  try_except
    (init_flags pname flags ;;
     init_fields days0 days1 sTimes durs)
    (fun _ => ret tt).

(** [OpenSprinklerProgram(pname, flags, days0, days1, sTimes, durs)]: the
    new object after [__init__], or the exception [__init__] lets out. *)
Definition new (pname flags days0 days1 sTimes durs : pyval) : outcome Program :=
  match init pname flags days0 days1 sTimes durs class_attributes with
  | (Returned _, p) => Returned p
  | (Raised e, _) => Raised e
  end.

End OpenSprinklerProgram.

(** ** OpenSprinklerStation *)

Record Station : Type := mkStation {
  station_name : pyval;
  status : pyval;
  station_id : Z;
  ignore_rain_flag : Z;
  is_sequential_flag : Z;
  is_disabled_flag : Z;
  is_special_flag : Z
}.

Module OpenSprinklerStation.

(** [__init__(self, sname, sstatus, sid, sirf, sseqf, sdisf, sspef)]: seven
    assignments, none of which can raise. *)
Definition new (sname sstatus : pyval) (sid sirf sseqf sdisf sspef : Z) : Station :=
  mkStation sname sstatus sid sirf sseqf sdisf sspef.

Definition getName (s : Station) : pyval := station_name s.
Definition getStatus (s : Station) : pyval := status s.
Definition getIgnoreRainFlag (s : Station) : Z := ignore_rain_flag s.
Definition getSequentialFlag (s : Station) : Z := is_sequential_flag s.
Definition getDisabledFlag (s : Station) : Z := is_disabled_flag s.
Definition getSpecialFlag (s : Station) : Z := is_special_flag s.

End OpenSprinklerStation.

(** ** OpenSprinklerController *)

(** The two list objects bound in the class body, [controller_stations = []]
    and [controller_programs = []].  No instance ever assigns these
    attributes, so [self.controller_stations] is this one list for every
    controller, and [append] mutates it for all of them. *)
Record class_lists : Type := mkClassLists {
  controller_stations : list Station;
  controller_programs : list Program
}.

(** What an instance owns: the attributes [__init__] assigns on [self]. *)
Record Controller : Type := mkController {
  controller_properties : list property;
  controller_enabled : bool
}.

(** The objects [__init__] works on. *)
Record heap : Type := mkHeap {
  self : Controller;
  cls : class_lists
}.

Module OpenSprinklerController.

(** The class as the module leaves it when it is loaded. *)
Definition class_attributes : class_lists := mkClassLists [] [].

(** An instance before [__init__] has assigned anything: reads fall back to
    the class body ([controller_properties = []], [controller_enabled =
    False]). *)
Definition blank : Controller := mkController [] false.

Definition assign_properties (props : list property) (h : heap) : heap :=
  mkHeap (mkController props (controller_enabled (self h))) (cls h).

Definition assign_enabled (b : bool) (h : heap) : heap :=
  mkHeap (mkController (controller_properties (self h)) b) (cls h).

(** [self.controller_stations.append(s)]. *)
Definition append_station (s : Station) (h : heap) : heap :=
  mkHeap (self h)
    (mkClassLists (controller_stations (cls h) ++ [s]) (controller_programs (cls h))).

(** [self.controller_programs.append(p)]. *)
Definition append_program (p : Program) (h : heap) : heap :=
  mkHeap (self h)
    (mkClassLists (controller_stations (cls h)) (controller_programs (cls h) ++ [p])).

(** One round of the station loop. *)
Definition station_step (myDict : snapshot)
    (ir_byte seq_byte dis_byte spe_byte : pyval) (idx : nat) : M heap unit :=
  let! stations := lift (Py.lookup_key myDict "stations") in
  let! snames := lift (Py.lookup_key stations "snames") in
  let! station_name := lift (Py.getitem snames idx) in
  let! status_section := lift (Py.lookup_key myDict "status") in
  let! sn := lift (Py.lookup_key status_section "sn") in
  let! status := lift (Py.getitem sn idx) in
  let! ignore_rain := lift (Py.and_ ir_byte (2 ^ Z.of_nat idx)) in
  let! is_disabled := lift (Py.and_ dis_byte (2 ^ Z.of_nat idx)) in
  let! is_sequential := lift (Py.and_ seq_byte (2 ^ Z.of_nat idx)) in
  let! is_special := lift (Py.and_ spe_byte (2 ^ Z.of_nat idx)) in
  let this_station :=
    OpenSprinklerStation.new station_name status (Z.of_nat idx)
      ignore_rain is_sequential is_disabled is_special in
  modify (append_station this_station).

(** One round of the program loop. *)
Definition program_step (myDict : snapshot) (idx : nat) : M heap unit :=
  let! programs := lift (Py.lookup_key myDict "programs") in
  let! pd := lift (Py.lookup_key programs "pd") in
  let! program_data := lift (Py.getitem pd idx) in
  let! flags := lift (Py.getitem program_data 0) in
  let! days0 := lift (Py.getitem program_data 1) in
  let! days1 := lift (Py.getitem program_data 2) in
  let! startTimes := lift (Py.getitem program_data 3) in
  let! durations := lift (Py.getitem program_data 4) in
  let! program_name := lift (Py.getitem program_data 5) in
  let! this_program :=
    lift (OpenSprinklerProgram.new program_name flags days0 days1 startTimes durations) in
  modify (append_program this_program).

(** Under [try], first statement: [self.controller_enabled]. *)
Definition read_enabled (myDict : snapshot) : M heap unit :=
  let! settings := lift (Py.lookup_key myDict "settings") in
  let! en := lift (Py.lookup_key settings "en") in
  modify (assign_enabled (Py.truthy en)).

(** Under [try], then: the four flag bytes and the station loop. *)
Definition build_stations (myDict : snapshot) : M heap unit :=
  let! stations := lift (Py.lookup_key myDict "stations") in
  let! ignore_rain := lift (Py.lookup_key stations "ignore_rain") in
  let! ir_byte := lift (Py.getitem ignore_rain 0) in
  let! stn_seq := lift (Py.lookup_key stations "stn_seq") in
  let! seq_byte := lift (Py.getitem stn_seq 0) in
  let! stn_dis := lift (Py.lookup_key stations "stn_dis") in
  let! dis_byte := lift (Py.getitem stn_dis 0) in
  let! stn_spe := lift (Py.lookup_key stations "stn_spe") in
  let! spe_byte := lift (Py.getitem stn_spe 0) in
  let! status_section := lift (Py.lookup_key myDict "status") in
  let! num_stations := lift (Py.lookup_key status_section "nstations") in
  while_idx_lt num_stations (station_step myDict ir_byte seq_byte dis_byte spe_byte).

(** Under [try], last: the program loop, bounded by
    [self.getProperty('num_programs')]. *)
Definition build_programs (myDict : snapshot) : M heap unit :=
  let! props := gets (fun h => controller_properties (self h)) in
  let! num_programs := lift (getProperty props "num_programs") in
  while_idx_lt num_programs (program_step myDict).

(** The statements under [try] in [__init__]. *)
Definition build_lists (myDict : snapshot) : M heap unit :=
  read_enabled myDict ;;
  build_stations myDict ;;
  build_programs myDict.

(** [__init__(self, myDict)]: the table, the resolving loop, then the
    lists under a [try] whose handler does nothing. *)
Definition init (myDict : snapshot) : M heap unit :=
  modify (assign_properties property_table) ;;
  let! props := lift (resolve_properties myDict property_table) in
  modify (assign_properties props) ;;
  try_except (build_lists myDict) (fun _ => ret tt).

(** [OpenSprinklerController(myDict)] with the class lists as they stand:
    the new instance (or the exception [__init__] lets out) and the class
    lists afterwards. *)
Definition new (myDict : snapshot) (c : class_lists) : outcome Controller * class_lists :=
  match init myDict (mkHeap blank c) with
  | (Returned _, h) => (Returned (self h), cls h)
  | (Raised e, h) => (Raised e, cls h)
  end.

(** [getStations] and [getPrograms] return the list objects the instance
    reaches through the class. *)
Definition getStations (_ : Controller) (c : class_lists) : list Station :=
  controller_stations c.
Definition getPrograms (_ : Controller) (c : class_lists) : list Program :=
  controller_programs c.

Definition isEnabled (ctl : Controller) : bool := controller_enabled ctl.

(** [getProperty] and [setProperty] as methods of an instance. *)
Definition getProperty (ctl : Controller) (var_name : string) : outcome pyval :=
  getProperty (controller_properties ctl) var_name.

Definition setProperty (ctl : Controller) (var_name : string) (var_value : pyval)
  : outcome pyval * Controller :=
  let (r, props) := setProperty (controller_properties ctl) var_name var_value in
  (r, mkController props (controller_enabled ctl)).

Definition getNumStations (ctl : Controller) : outcome pyval :=
  getProperty ctl "num_stations".
Definition getNumPrograms (ctl : Controller) : outcome pyval :=
  getProperty ctl "num_programs".

(** [getHardwareVersion]. *)
Definition getHardwareVersion (ctl : Controller) : outcome pyval :=
  getProperty ctl "hardware_version".

(** [getHardwareType]: ['AC Powered'] when the property equals 172, which
    only the integer 172 does, ['DC Powered'] otherwise. *)
Definition getHardwareType (ctl : Controller) : outcome string :=
  match getProperty ctl "hardware_type" with
  | Raised e => Raised e
  | Returned hwt =>
      match Py.as_int hwt with
      | Some z => if (z =? 172)%Z then Returned "AC Powered" else Returned "DC Powered"
      | None => Returned "DC Powered"
      end
  end.

End OpenSprinklerController.

(** The value the registry holds under a name, read off the listing of
    [getProperties] (first entry of that name). *)
Fixpoint listed_value (listing : list (string * pyval)) (name : string) : option pyval :=
  match listing with
  | [] => None
  | (n, v) :: rest => if String.eqb n name then Some v else listed_value rest name
  end.

(** * Definitions the statements are written with *)

(** A relation between the objects before and after that every run of a
    computation keeps, whether it returns or raises. *)
Definition keeps {S A : Type} (R : S -> S -> Prop) (m : M S A) : Prop :=
  forall s, R s (snd (m s)).

(** [snapshot[section][key]], when both are there. *)
Definition snapshot_value (myDict : snapshot) (sec key : string) : option pyval :=
  match myDict !! sec with
  | Some d => d !! key
  | None => None
  end.

(** An entry the resolving loop can read: it is derived or has an 'abbrev'. *)
Definition well_keyed (prop : property) : bool :=
  String.eqb (p_source prop) "derived" ||
  match p_abbrev prop with Some _ => true | None => false end.

(** What the loop leaves in an entry. *)
Definition resolved (myDict : snapshot) (def : property) : property :=
  if String.eqb (p_source def) "derived" then def
  else
    match p_abbrev def with
    | Some key =>
        match snapshot_value myDict (p_source def) key with
        | Some v => set_val v def
        | None => def
        end
    | None => def
    end.

(** The registry of the instance is the same before and after. *)
Definition same_properties (h h' : heap) : Prop :=
  controller_properties (self h') = controller_properties (self h).

(** The five fields as the bits of [flags] give them. *)
Definition restriction_of (z : Z) : string :=
  if Z.testbit z 2 then "Odd" else if Z.testbit z 3 then "Even" else "None".
Definition schedule_type_of (z : Z) : string :=
  if Z.testbit z 4 || Z.testbit z 5 then "Interval" else "Weekday".
Definition start_time_type_of (z : Z) : string :=
  if Z.testbit z 6 then "Fixed" else "Repeating".

(** The object after the first statements of [__init__]. *)
Definition with_flags (pname : pyval) (z : Z) (s : Program) : Program :=
  mkProgram pname (Z.testbit z 0) (Z.testbit z 1) (restriction_of z)
    (schedule_type_of z) (start_time_type_of z)
    (program_schedule s) (program_fixed_start_times s)
    (program_repeating_start_times s) (program_zone_durations s).

(** A repeating start time as the bits of the raw value give it. *)
Definition decode_repeating (t : Z) : start_time :=
  mkStartTime
    (if Z.testbit t 13 then "Sunset" else if Z.testbit t 12 then "Sunrise" else "Midnight")
    (if Z.testbit t 11 then "plus" else "minus")
    (Z.land t 2047).

(** The name and the fields decoded from [flags]. *)
Definition same_flags (s s' : Program) : Prop :=
  program_name s' = program_name s /\
  program_enabled s' = program_enabled s /\
  program_use_weather_adjustment s' = program_use_weather_adjustment s /\
  program_restriction s' = program_restriction s /\
  program_schedule_type s' = program_schedule_type s /\
  program_start_time_type s' = program_start_time_type s.

(** The schedule is the same before and after. *)
Definition same_schedule (s s' : Program) : Prop :=
  program_schedule s' = program_schedule s.

(** What an entry of an interval schedule holds. *)
Definition entry_interval (e : schedule_entry) : option pyval :=
  match e with
  | IntervalEntry interval _ => Some interval
  | DayEntry _ _ => None
  end.

Definition entry_delay (e : schedule_entry) : option pyval :=
  match e with
  | IntervalEntry _ delay => Some delay
  | DayEntry _ _ => None
  end.

(** The class list of stations with [new] appended. *)
Definition add_stations (new : list Station) (h : heap) : heap :=
  mkHeap (self h)
    (mkClassLists (controller_stations (cls h) ++ new) (controller_programs (cls h))).

(** The station the loop builds at [idx] from the names, the status codes
    and the four bytes. *)
Definition station_of (names sns : list pyval) (ir sq ds sp : Z) (idx : nat) : Station :=
  mkStation (nth idx names PNone) (nth idx sns PNone) (Z.of_nat idx)
    (Z.land ir (2 ^ Z.of_nat idx)) (Z.land sq (2 ^ Z.of_nat idx))
    (Z.land ds (2 ^ Z.of_nat idx)) (Z.land sp (2 ^ Z.of_nat idx)).

(** A snapshot of a controller with three stations and one program. *)
Definition sample_snapshot : snapshot :=
  {[ "settings" := ({[ "en" := PInt 1; "devt" := PInt 1700000000 ]} : section);
     "options" := ({[ "fwv" := PInt 219 ]} : section);
     "stations" :=
       ({[ "ignore_rain" := PList [PInt 5]; "stn_seq" := PList [PInt 7];
           "stn_dis" := PList [PInt 2]; "stn_spe" := PList [PInt 0];
           "snames" := PList [PStr "Lawn"; PStr "Beds"; PStr "Drip"] ]} : section);
     "status" :=
       ({[ "sn" := PList [PInt 0; PInt 1; PInt 0]; "nstations" := PInt 3 ]} : section);
     "programs" :=
       ({[ "nprogs" := PInt 1;
           "pd" := PList [PList [PInt 1; PInt 65; PInt 0; PList [PInt 10270; PInt 0];
                                 PList [PInt 600; PInt 0; PInt 300]; PStr "Morning"]] ]}
        : section) ]}.

(** The same controller reporting three stations and two names. *)
Definition short_snapshot : snapshot :=
  {[ "settings" := ({[ "en" := PInt 1 ]} : section);
     "stations" :=
       ({[ "ignore_rain" := PList [PInt 5]; "stn_seq" := PList [PInt 7];
           "stn_dis" := PList [PInt 2]; "stn_spe" := PList [PInt 0];
           "snames" := PList [PStr "Lawn"; PStr "Beds"] ]} : section);
     "status" :=
       ({[ "sn" := PList [PInt 0; PInt 1; PInt 0]; "nstations" := PInt 3 ]} : section);
     "programs" := ({[ "nprogs" := PInt 0; "pd" := PList [] ]} : section) ]}.


(** The integers at the head of a list of raw start times ([bool]s
    counting as 0 and 1), up to the first entry that is neither an [int] nor
    a [bool]. *)
Fixpoint numeric_prefix (items : list pyval) : list Z :=
  match items with
  | [] => []
  | v :: rest =>
      match Py.as_int v with
      | Some z => z :: numeric_prefix rest
      | None => []
      end
  end.

(** Whether every entry of a list of raw start times is an [int] or a
    [bool]. *)
Definition all_numeric (items : list pyval) : bool :=
  forallb (fun v => match Py.as_int v with Some _ => true | None => false end) items.

(** A repeating start time with a known basis, a known sign and an offset
    of eleven bits. *)
Definition start_time_in_range (st : start_time) : Prop :=
  (basis st = "Sunset" \/ basis st = "Sunrise" \/ basis st = "Midnight") /\
  (sign st = "plus" \/ sign st = "minus") /\
  (0 <= offset st <= 2047)%Z.

(** A program that holds no fixed start time keeps holding none. *)
Definition no_fixed_start_time (s s' : Program) : Prop :=
  program_fixed_start_times s = [] -> program_fixed_start_times s' = [].

(** A program whose repeating start times are in range keeps them so. *)
Definition start_times_in_range (s s' : Program) : Prop :=
  Forall start_time_in_range (program_repeating_start_times s) ->
  Forall start_time_in_range (program_repeating_start_times s').

(** The seven entries of a weekday schedule, Monday first, from the bits of
    [days0]. *)
Definition weekday_schedule_of (d0 : Z) : list schedule_entry :=
  [ DayEntry "Monday" (Z.testbit d0 0); DayEntry "Tuesday" (Z.testbit d0 1);
    DayEntry "Wednesday" (Z.testbit d0 2); DayEntry "Thursday" (Z.testbit d0 3);
    DayEntry "Friday" (Z.testbit d0 4); DayEntry "Saturday" (Z.testbit d0 5);
    DayEntry "Sunday" (Z.testbit d0 6) ].

(** The sample controller, with 'settings' lost. *)
Definition unsettled_snapshot : snapshot := delete "settings" sample_snapshot.

(** The sample controller, with the list of special stations lost. *)
Definition unflagged_snapshot : snapshot :=
  <[ "stations" :=
       ({[ "ignore_rain" := PList [PInt 5]; "stn_seq" := PList [PInt 7];
           "stn_dis" := PList [PInt 2];
           "snames" := PList [PStr "Lawn"; PStr "Beds"; PStr "Drip"] ]} : section) ]>
    sample_snapshot.

(** The sample controller reporting a key the table does not declare, and
    a section the table does not know. *)
Definition extended_snapshot : snapshot :=
  <[ "weather" := ({[ "temp" := PInt 21 ]} : section) ]>
    (<[ "options" := ({[ "fwv" := PInt 219; "zzz" := PInt 1 ]} : section) ]>
       sample_snapshot).

(** The sample controller reporting its number of stations as a text. *)
Definition text_count_snapshot : snapshot :=
  <[ "status" :=
       ({[ "sn" := PList [PInt 0; PInt 1; PInt 0]; "nstations" := PStr "3" ]} : section) ]>
    sample_snapshot.

(** A sequence of [setProperty] calls on one controller. *)
Definition apply_writes (ctl : Controller) (writes : list (string * pyval)) : Controller :=
  fold_left
    (fun c w => snd (OpenSprinklerController.setProperty c (fst w) (snd w)))
    writes ctl.


(** The short snapshot with [true] at the head of 'ignore_rain'. *)
Definition bool_flag_snapshot : snapshot :=
  <[ "stations" :=
       ({[ "ignore_rain" := PList [PBool true]; "stn_seq" := PList [PInt 7];
           "stn_dis" := PList [PInt 2]; "stn_spe" := PList [PInt 0];
           "snames" := PList [PStr "Lawn"; PStr "Beds"] ]} : section) ]>
    short_snapshot.

(** * Verification *)

(** ** Bit tests *)

Section Bits.
Local Open Scope Z_scope.

(** Masking with one power of two leaves that power or nothing. *)
Lemma land_pow2 (z k : Z) :
  0 <= k -> Z.land z (2 ^ k) = if Z.testbit z k then 2 ^ k else 0.
Proof.
  intros Hk. apply Z.bits_inj'. intros n Hn.
  rewrite Z.land_spec, Z.pow2_bits_eqb by exact Hk.
  destruct (Z.eqb_spec k n) as [->|Hne].
  - destruct (Z.testbit z n); simpl.
    + rewrite Z.pow2_bits_eqb by exact Hn. now rewrite Z.eqb_refl.
    + now rewrite Z.bits_0.
  - rewrite andb_false_r. destruct (Z.testbit z k).
    + rewrite Z.pow2_bits_eqb by exact Hk.
      symmetry. now apply Z.eqb_neq.
    + now rewrite Z.bits_0.
Qed.

(** [if z & 2**k] tests bit [k] of [z]. *)
Lemma mask_truthy (z k : Z) :
  0 <= k -> negb (Z.land z (2 ^ k) =? 0) = Z.testbit z k.
Proof.
  intros Hk. rewrite land_pow2 by exact Hk.
  destruct (Z.testbit z k); [|reflexivity].
  assert (0 < 2 ^ k) by (apply Z.pow_pos_nonneg; lia).
  destruct (Z.eqb_spec (2 ^ k) 0); [lia | reflexivity].
Qed.

(** A byte has no bit from position 8 on. *)
Lemma byte_high_bits (b k : Z) :
  0 <= b < 256 -> 8 <= k -> Z.testbit b k = false.
Proof.
  intros Hb Hk.
  rewrite <- (Z.mod_small b (2 ^ 8)) by (change (2 ^ 8) with 256; lia).
  apply Z.mod_pow2_bits_high. lia.
Qed.

End Bits.

(** ** Running the monad *)

Section Run.
Context {S : Type}.

Lemma bind_lift {A B : Type} (o : outcome A) (k : A -> M S B) (s : S) :
  bind (lift o) k s =
  match o with
  | Returned a => k a s
  | Raised e => (Raised e, s)
  end.
Proof. reflexivity. Qed.

Lemma bind_modify {B : Type} (f : S -> S) (k : unit -> M S B) (s : S) :
  bind (modify f) k s = k tt (f s).
Proof. reflexivity. Qed.

Lemma bind_gets {A B : Type} (f : S -> A) (k : A -> M S B) (s : S) :
  bind (gets f) k s = k (f s) s.
Proof. reflexivity. Qed.

Lemma bind_ret {A B : Type} (a : A) (k : A -> M S B) (s : S) :
  bind (ret a) k s = k a s.
Proof. reflexivity. Qed.

Lemma bind_assoc {A B C : Type} (m : M S A) (k : A -> M S B) (k' : B -> M S C) (s : S) :
  bind (bind m k) k' s = bind m (fun a => bind (k a) k') s.
Proof.
  unfold bind. destruct (m s) as [[a|e] s']; reflexivity.
Qed.

(** A [try] whose handler returns never raises. *)
Lemma try_except_swallows (body : M S unit) (s : S) :
  try_except body (fun _ => ret tt) s = (Returned tt, snd (body s)).
Proof.
  unfold try_except. destruct (body s) as [[[]|e] s']; reflexivity.
Qed.

(** *** Frame conditions: a relation every step of a computation keeps *)

Variable R : S -> S -> Prop.
Hypothesis R_refl : forall s, R s s.
Hypothesis R_trans : forall s1 s2 s3, R s1 s2 -> R s2 s3 -> R s1 s3.

Lemma keeps_ret {A : Type} (a : A) : keeps R (ret a).
Proof. intros s. apply R_refl. Qed.

Lemma keeps_raise {A : Type} (e : exn) : keeps R (@raise S A e).
Proof. intros s. apply R_refl. Qed.

Lemma keeps_lift {A : Type} (o : outcome A) : keeps R (lift o).
Proof. intros s. apply R_refl. Qed.

Lemma keeps_gets {A : Type} (f : S -> A) : keeps R (gets f).
Proof. intros s. apply R_refl. Qed.

Lemma keeps_modify (f : S -> S) : (forall s, R s (f s)) -> keeps R (modify f).
Proof. intros H s. apply H. Qed.

Lemma keeps_bind {A B : Type} (m : M S A) (k : A -> M S B) :
  keeps R m -> (forall a, keeps R (k a)) -> keeps R (bind m k).
Proof.
  intros Hm Hk s. unfold bind. specialize (Hm s).
  destruct (m s) as [[a|e] s']; simpl in *.
  - eapply R_trans; [exact Hm | apply Hk].
  - exact Hm.
Qed.

Lemma keeps_try_except {A : Type} (body : M S A) (handler : exn -> M S A) :
  keeps R body -> (forall e, keeps R (handler e)) -> keeps R (try_except body handler).
Proof.
  intros Hb Hh s. unfold try_except. specialize (Hb s).
  destruct (body s) as [[a|e] s']; simpl in *.
  - exact Hb.
  - eapply R_trans; [exact Hb | apply Hh].
Qed.

Lemma keeps_for_each {A : Type} (l : list A) (body : A -> M S unit) :
  (forall x, keeps R (body x)) -> keeps R (for_each l body).
Proof.
  intros Hb. induction l as [|x l IH]; simpl.
  - apply keeps_ret.
  - apply keeps_bind; [apply Hb | intros _; exact IH].
Qed.

Lemma keeps_count_up (remaining idx : nat) (body : nat -> M S unit) :
  (forall i, keeps R (body i)) -> keeps R (count_up remaining idx body).
Proof.
  intros Hb. revert idx. induction remaining as [|r IH]; intros idx; simpl.
  - apply keeps_ret.
  - apply keeps_bind; [apply Hb | intros _; apply IH].
Qed.

Lemma keeps_while_idx_lt (bound : pyval) (body : nat -> M S unit) :
  (forall i, keeps R (body i)) -> keeps R (while_idx_lt bound body).
Proof.
  intros Hb. unfold while_idx_lt. destruct (Py.as_int bound).
  - apply keeps_count_up, Hb.
  - apply keeps_raise.
Qed.

Lemma keeps_if {A : Type} (b : bool) (m1 m2 : M S A) :
  keeps R m1 -> keeps R m2 -> keeps R (if b then m1 else m2).
Proof. destruct b; auto. Qed.

End Run.

(** ** The registry *)

Lemma resolve_property_resolved (myDict : snapshot) (prop : property) :
  well_keyed prop = true ->
  resolve_property myDict prop = Returned (resolved myDict prop).
Proof.
  unfold well_keyed, resolve_property, resolved, snapshot_value.
  destruct (String.eqb (p_source prop) "derived"); simpl; [reflexivity|].
  destruct (p_abbrev prop) as [key|]; [|discriminate]. intros _.
  destruct (myDict !! p_source prop) as [sec|]; [|reflexivity].
  destruct (sec !! key); reflexivity.
Qed.

Lemma resolve_properties_resolved (myDict : snapshot) (props : list property) :
  forallb well_keyed props = true ->
  resolve_properties myDict props = Returned (map (resolved myDict) props).
Proof.
  induction props as [|prop rest IH]; simpl; [reflexivity|].
  intros H. apply andb_prop in H as [Hp Hrest].
  rewrite (resolve_property_resolved _ _ Hp), (IH Hrest). reflexivity.
Qed.

Lemma property_table_well_keyed : forallb well_keyed property_table = true.
Proof. reflexivity. Qed.

Lemma resolved_name (myDict : snapshot) (def : property) :
  p_name (resolved myDict def) = p_name def.
Proof.
  unfold resolved. destruct (String.eqb _ _); [reflexivity|].
  destruct (p_abbrev def); [|reflexivity].
  destruct (snapshot_value _ _ _); reflexivity.
Qed.

(** *** The constructor: what it does to the instance *)

Lemma same_properties_refl h : same_properties h h.
Proof. reflexivity. Qed.
Lemma same_properties_trans h1 h2 h3 :
  same_properties h1 h2 -> same_properties h2 h3 -> same_properties h1 h3.
Proof. unfold same_properties. congruence. Qed.
Ltac frame_with Hrefl Htrans :=
  repeat first
    [ apply (keeps_ret _ Hrefl)
    | apply (keeps_raise _ Hrefl)
    | apply (keeps_lift _ Hrefl)
    | apply (keeps_gets _ Hrefl)
    | apply (keeps_bind _ Htrans); [| intros ?]
    | apply (keeps_try_except _ Htrans); [| intros ?]
    | apply (keeps_for_each _ Hrefl Htrans); intros ?
    | apply (keeps_while_idx_lt _ Hrefl Htrans); intros ?
    | apply keeps_modify; intros ? ].

(** Nothing under [try] assigns [self.controller_properties] or an entry. *)
Lemma build_lists_same_properties (myDict : snapshot) :
  keeps same_properties (OpenSprinklerController.build_lists myDict).
Proof.
  unfold OpenSprinklerController.build_lists,
    OpenSprinklerController.read_enabled,
    OpenSprinklerController.build_stations,
    OpenSprinklerController.build_programs,
    OpenSprinklerController.station_step,
    OpenSprinklerController.program_step.
  frame_with same_properties_refl same_properties_trans; reflexivity.
Qed.

(** The constructor returns an instance whose registry is the table with
    every entry resolved, whatever the snapshot and the class lists. *)
Lemma new_returns (myDict : snapshot) (c : class_lists) :
  exists ctl c',
    OpenSprinklerController.new myDict c = (Returned ctl, c') /\
    controller_properties ctl = map (resolved myDict) property_table.
Proof.
  unfold OpenSprinklerController.new, OpenSprinklerController.init.
  rewrite bind_modify, bind_lift.
  rewrite (resolve_properties_resolved _ _ property_table_well_keyed).
  rewrite bind_modify, try_except_swallows.
  eexists _, _. split; [reflexivity|].
  apply (build_lists_same_properties myDict).
Qed.

(** C7. Resolving the registry never fails: for every snapshot the
    constructor returns an instance whose registry has one entry per
    definition of the table, under the same name and in the same order; the
    value of a definition that is not derived is [snapshot[section][key]],
    unchanged, when the section and the key are both present, and its
    declared default otherwise; a derived definition keeps its default. *)
Theorem registry_resolution (myDict : snapshot) (c : class_lists) :
  exists ctl c',
    OpenSprinklerController.new myDict c = (Returned ctl, c') /\
    length (controller_properties ctl) = length property_table /\
    forall (i : nat) (def : property),
      property_table !! i = Some def ->
      exists prop,
        controller_properties ctl !! i = Some prop /\
        p_name prop = p_name def /\
        (p_source def = "derived" -> p_val prop = p_val def) /\
        (p_source def <> "derived" ->
         forall key, p_abbrev def = Some key ->
           match snapshot_value myDict (p_source def) key with
           | Some v => p_val prop = v
           | None => p_val prop = p_val def
           end).
Proof.
  destruct (new_returns myDict c) as (ctl & c' & Hnew & Hprops).
  exists ctl, c'. split; [exact Hnew|]. rewrite Hprops. split.
  - apply length_map.
  - intros i def Hdef. exists (resolved myDict def). split.
    + rewrite list_lookup_fmap, Hdef. reflexivity.
    + split; [apply resolved_name|]. unfold resolved. split.
      * intros Hd. rewrite Hd. reflexivity.
      * intros Hnd key Hkey.
        destruct (String.eqb_spec (p_source def) "derived") as [E|_]; [contradiction|].
        rewrite Hkey.
        destruct (snapshot_value myDict (p_source def) key); reflexivity.
Qed.

(** C1, on the code.  For every snapshot the constructed controller lists
    'num_stations' in its registry, yet [getProperty('num_stations')] raises,
    and what it raises is [NameError]: only the first entry,
    'device_time', can be read. *)
Theorem getProperty_reads_first_entry_only (myDict : snapshot) (c : class_lists) :
  exists ctl c',
    OpenSprinklerController.new myDict c = (Returned ctl, c') /\
    In "num_stations" (map fst (getProperties (controller_properties ctl))) /\
    OpenSprinklerController.getProperty ctl "num_stations"
      = Raised (NameError "UnknownPropertyError") /\
    OpenSprinklerController.getProperty ctl "num_programs"
      = Raised (NameError "UnknownPropertyError") /\
    OpenSprinklerController.getProperty ctl "no_such_property"
      = Raised (NameError "UnknownPropertyError") /\
    exists v, OpenSprinklerController.getProperty ctl "device_time" = Returned v.
Proof.
  destruct (new_returns myDict c) as (ctl & c' & Hnew & Hprops).
  exists ctl, c'. split; [exact Hnew|].
  unfold OpenSprinklerController.getProperty, getProperties.
  rewrite Hprops, !map_map.
  split.
  - replace (map _ property_table) with (map p_name property_table).
    + unfold property_table. simpl. do 63 right. left. reflexivity.
    + apply map_ext. intros def. symmetry. apply resolved_name.
  - unfold property_table at 1 2 3 4. cbn [map getProperty].
    rewrite !resolved_name. cbn. eauto.
Qed.

(** Asked for another name than the first entry's, [getProperty] raises. *)
Lemma getProperty_not_first (prop_item : property) (rest : list property) (name : string) :
  String.eqb (p_name prop_item) name = false ->
  getProperty (prop_item :: rest) name = Raised (NameError "UnknownPropertyError").
Proof. intros H. simpl. rewrite H. reflexivity. Qed.

(** Absence from a list of names, decided by comparing the texts. *)
Lemma not_in_names (name : string) (names : list string) :
  existsb (String.eqb name) names = false -> ~ In name names.
Proof.
  intros H Hin.
  assert (existsb (String.eqb name) names = true) as Hex.
  { apply existsb_exists. exists name. split; [exact Hin | apply String.eqb_refl]. }
  congruence.
Qed.

Lemma setProperty_unregistered (props : list property) (name : string) (v : pyval) :
  ~ In name (map p_name props) ->
  setProperty props name v = (Returned PNone, props).
Proof.
  induction props as [|prop rest IH]; simpl; [reflexivity|].
  intros Hnot.
  destruct (String.eqb_spec (p_name prop) name) as [E|_].
  - exfalso. apply Hnot. left. exact E.
  - rewrite IH; [reflexivity|]. intros Hin. apply Hnot. right. exact Hin.
Qed.

(** C10. On a name that no entry of the registry carries, [setProperty]
    raises nothing, returns [None] and leaves the controller, and so the
    value of every registered property, as it was. *)
Theorem setProperty_unknown_name_is_noop
    (ctl : Controller) (var_name : string) (var_value : pyval) :
  ~ In var_name (map p_name (controller_properties ctl)) ->
  OpenSprinklerController.setProperty ctl var_name var_value = (Returned PNone, ctl).
Proof.
  intros Hnot. unfold OpenSprinklerController.setProperty.
  rewrite (setProperty_unregistered _ _ _ Hnot). destruct ctl; reflexivity.
Qed.

Lemma setProperty_unknown_name_is_noop_witness :
  ~ In "no_such_property"
      (map p_name (controller_properties (mkController property_table true))) /\
  OpenSprinklerController.setProperty (mkController property_table true)
    "no_such_property" (PInt 7)
  = (Returned PNone, mkController property_table true).
Proof.
  split.
  - apply not_in_names. reflexivity.
  - apply (setProperty_unknown_name_is_noop (mkController property_table true)
             "no_such_property" (PInt 7)).
    apply not_in_names. reflexivity.
Defined.

(** ** Programs *)

Module ProgramFacts.
Import OpenSprinklerProgram.

Lemma same_flags_refl s : same_flags s s.
Proof. repeat split. Qed.

Lemma same_flags_trans s1 s2 s3 :
  same_flags s1 s2 -> same_flags s2 s3 -> same_flags s1 s3.
Proof. unfold same_flags. intuition congruence. Qed.

Lemma init_flags_int (pname : pyval) (z : Z) (s : Program) :
  init_flags pname (PInt z) s = (Returned tt, with_flags pname z s).
Proof.
  pose proof (mask_truthy z 0 ltac:(lia)) as B0.
  pose proof (mask_truthy z 1 ltac:(lia)) as B1.
  pose proof (mask_truthy z 2 ltac:(lia)) as B2.
  pose proof (mask_truthy z 3 ltac:(lia)) as B3.
  pose proof (mask_truthy z 4 ltac:(lia)) as B4.
  pose proof (mask_truthy z 5 ltac:(lia)) as B5.
  pose proof (mask_truthy z 6 ltac:(lia)) as B6.
  change (2 ^ 0)%Z with 1%Z in B0. change (2 ^ 1)%Z with 2%Z in B1.
  change (2 ^ 2)%Z with 4%Z in B2. change (2 ^ 3)%Z with 8%Z in B3.
  change (2 ^ 4)%Z with 16%Z in B4. change (2 ^ 5)%Z with 32%Z in B5.
  change (2 ^ 6)%Z with 64%Z in B6.
  cbv beta iota delta
    [init_flags setName setEnabled setWxAdjustment setRestrictions setScheduleType
     setStartTimeType setter try_except modify bind lift ret Py.and_ Py.as_int].
  rewrite B0, B1, B2, B3, B4, B5, B6.
  unfold with_flags, restriction_of, schedule_type_of, start_time_type_of.
  destruct (Z.testbit z 2), (Z.testbit z 3), (Z.testbit z 4), (Z.testbit z 5),
    (Z.testbit z 6); reflexivity.
Qed.

Ltac frame_flags :=
  repeat first
    [ apply (keeps_ret _ same_flags_refl)
    | apply (keeps_raise _ same_flags_refl)
    | apply (keeps_lift _ same_flags_refl)
    | apply (keeps_gets _ same_flags_refl)
    | apply (keeps_bind _ same_flags_trans); [| intros ?]
    | apply (keeps_try_except _ same_flags_trans); [| intros ?]
    | apply (keeps_for_each _ same_flags_refl same_flags_trans); intros ?
    | apply keeps_if
    | apply keeps_modify; intros ? ].

(** The last statements of [__init__] assign none of the fields decoded
    from [flags], whether they return or raise. *)
Lemma init_fields_same_flags (days0 days1 sTimes durs : pyval) :
  keeps same_flags (init_fields days0 days1 sTimes durs).
Proof.
  unfold init_fields, getScheduleType, getStartTimeType, setSchedule, setStartTimes,
    setWeekdaySchedule, setIntervalSchedule, setFixedStartTimes,
    setRepeatingStartTimes, repeating_step, setDurations, setter.
  frame_flags; repeat split.
Qed.

(** With an integer for [flags], [__init__] leaves the decoded fields in
    the object, whatever the later statements do. *)
Lemma init_int_flags (pname : pyval) (z : Z) (days0 days1 sTimes durs : pyval) (s : Program) :
  exists p,
    init pname (PInt z) days0 days1 sTimes durs s = (Returned tt, p) /\
    p = snd (init_fields days0 days1 sTimes durs (with_flags pname z s)) /\
    same_flags (with_flags pname z s) p.
Proof.
  unfold init. rewrite try_except_swallows.
  unfold bind at 1. rewrite init_flags_int.
  eexists. split; [reflexivity|]. split; [reflexivity|].
  apply init_fields_same_flags.
Qed.

(** *** The schedule *)

Lemma weekday_entries_int (d0 : Z) (days : list (nat * string)) :
  weekday_entries (PInt d0) days =
  Returned (map (fun d => DayEntry (snd d) (Z.testbit d0 (Z.of_nat (fst d)))) days).
Proof.
  induction days as [|[day_index day_name] rest IH]; simpl; [reflexivity|].
  rewrite IH, mask_truthy by lia. reflexivity.
Qed.

Lemma setSchedule_interval (pstype : string) (d0 d1 : pyval) (s : Program) :
  String.eqb pstype "Weekday" = false ->
  setSchedule pstype d0 d1 s = (Returned tt, assign_schedule [IntervalEntry d0 d1] s).
Proof. intros H. unfold setSchedule. rewrite H. reflexivity. Qed.

Lemma setSchedule_weekday (d0 : Z) (d1 : pyval) (s : Program) :
  setSchedule "Weekday" (PInt d0) d1 s =
  (Returned tt,
   assign_schedule
     (map (fun d => DayEntry (snd d) (Z.testbit d0 (Z.of_nat (fst d)))) (Py.enumerate week))
     s).
Proof.
  unfold setSchedule, setWeekdaySchedule. rewrite String.eqb_refl.
  rewrite bind_lift, weekday_entries_int. reflexivity.
Qed.

(** With an integer [days0] the schedule is always set. *)
Lemma setSchedule_returns (pstype : string) (d0 : Z) (d1 : pyval) (s : Program) :
  exists schedule,
    setSchedule pstype (PInt d0) d1 s = (Returned tt, assign_schedule schedule s).
Proof.
  destruct (String.eqb pstype "Weekday") eqn:E.
  - apply String.eqb_eq in E. subst pstype. eexists. apply setSchedule_weekday.
  - eexists. apply setSchedule_interval, E.
Qed.

(** *** The start times *)

Lemma repeating_step_int (t : Z) (s : Program) :
  repeating_step (PInt t) s =
  (Returned tt,
   if (0 <? t)%Z
   then assign_repeating_start_times
          (program_repeating_start_times s ++ [decode_repeating t]) s
   else s).
Proof.
  pose proof (mask_truthy t 13 ltac:(lia)) as B13.
  pose proof (mask_truthy t 12 ltac:(lia)) as B12.
  pose proof (mask_truthy t 11 ltac:(lia)) as B11.
  change (2 ^ 13)%Z with 8192%Z in B13. change (2 ^ 12)%Z with 4096%Z in B12.
  change (2 ^ 11)%Z with 2048%Z in B11.
  cbv beta iota delta
    [repeating_step try_except modify bind lift ret Py.and_ Py.gt0 Py.as_int].
  rewrite B13, B12, B11. unfold decode_repeating.
  destruct (0 <? t)%Z; [|reflexivity].
  destruct (Z.testbit t 13), (Z.testbit t 12), (Z.testbit t 11); reflexivity.
Qed.

Lemma assign_repeating_twice (l l' : list start_time) (s : Program) :
  assign_repeating_start_times l (assign_repeating_start_times l' s)
  = assign_repeating_start_times l s.
Proof. reflexivity. Qed.

Lemma for_each_repeating (ts : list Z) (s : Program) :
  for_each (map PInt ts) repeating_step s =
  (Returned tt,
   assign_repeating_start_times
     (program_repeating_start_times s
        ++ map decode_repeating (List.filter (fun t => (0 <? t)%Z) ts)) s).
Proof.
  revert s. induction ts as [|t ts IH]; intros s.
  - simpl. rewrite app_nil_r. destruct s; reflexivity.
  - cbn [map for_each List.filter]. unfold bind. rewrite repeating_step_int, IH.
    destruct (0 <? t)%Z.
    + cbn [map]. simpl program_repeating_start_times.
      rewrite assign_repeating_twice, <- app_assoc. reflexivity.
    + reflexivity.
Qed.

Lemma setStartTimes_repeating (psttype : string) (ts : list Z) (s : Program) :
  String.eqb psttype "Fixed" = false ->
  setStartTimes psttype (PList (map PInt ts)) s =
  (Returned tt,
   assign_repeating_start_times
     (map decode_repeating (List.filter (fun t => (0 <? t)%Z) ts))
     (assign_fixed_start_times [] s)).
Proof.
  intros H. unfold setStartTimes, setRepeatingStartTimes. rewrite H.
  rewrite !bind_modify, bind_lift. simpl Py.iter. cbv iota.
  rewrite for_each_repeating. reflexivity.
Qed.

Lemma setStartTimes_fixed (sTimes : pyval) (s : Program) :
  setStartTimes "Fixed" sTimes s =
  (Raised (NameError "sTimes"),
   assign_repeating_start_times [] (assign_fixed_start_times [] s)).
Proof. reflexivity. Qed.


(** *** The whole of [__init__] *)

Lemma init_fields_repeating
    (d0 : Z) (d1 : pyval) (ts : list Z) (durs : pyval) (s : Program) :
  program_start_time_type s = "Repeating" ->
  exists schedule,
    init_fields (PInt d0) d1 (PList (map PInt ts)) durs s =
    (Returned tt,
     assign_zone_durations durs
       (assign_repeating_start_times
          (map decode_repeating (List.filter (fun t => (0 <? t)%Z) ts))
          (assign_fixed_start_times [] (assign_schedule schedule s)))).
Proof.
  intros Htype. unfold init_fields, getScheduleType, getStartTimeType.
  rewrite bind_gets.
  destruct (setSchedule_returns (program_schedule_type s) d0 d1 s) as [schedule Hs].
  exists schedule. unfold bind at 1. rewrite Hs, bind_gets.
  simpl program_start_time_type. rewrite Htype.
  unfold bind at 1. rewrite setStartTimes_repeating by reflexivity.
  reflexivity.
Qed.

(** A program whose start times are fixed: the loop of
    [setFixedStartTimes] raises before it reads anything, and
    [setDurations] is never reached. *)
Lemma init_fields_fixed (d0 : Z) (d1 sTimes durs : pyval) (s : Program) :
  program_start_time_type s = "Fixed" ->
  exists schedule,
    init_fields (PInt d0) d1 sTimes durs s =
    (Raised (NameError "sTimes"),
     assign_repeating_start_times []
       (assign_fixed_start_times [] (assign_schedule schedule s))).
Proof.
  intros Htype. unfold init_fields, getScheduleType, getStartTimeType.
  rewrite bind_gets.
  destruct (setSchedule_returns (program_schedule_type s) d0 d1 s) as [schedule Hs].
  exists schedule. unfold bind at 1. rewrite Hs, bind_gets.
  simpl program_start_time_type. rewrite Htype.
  unfold bind at 1. rewrite setStartTimes_fixed. reflexivity.
Qed.

Lemma fixed_program_keeps_nothing
    (pname : pyval) (flags d0 : Z) (d1 sTimes durs : pyval) :
  Z.testbit flags 6 = true ->
  exists p,
    new pname (PInt flags) (PInt d0) d1 sTimes durs = Returned p /\
    program_fixed_start_times p = [] /\
    program_repeating_start_times p = [] /\
    program_zone_durations p = PList [].
Proof.
  intros Hbit.
  destruct (init_int_flags pname flags (PInt d0) d1 sTimes durs class_attributes)
    as (p & Hinit & Hp & _).
  exists p. unfold new. rewrite Hinit. split; [reflexivity|].
  destruct (init_fields_fixed d0 d1 sTimes durs (with_flags pname flags class_attributes))
    as [schedule Hf].
  { simpl. unfold start_time_type_of. rewrite Hbit. reflexivity. }
  rewrite Hf in Hp. subst p. repeat split.
Qed.

Lemma same_schedule_refl s : same_schedule s s.
Proof. reflexivity. Qed.

Lemma same_schedule_trans s1 s2 s3 :
  same_schedule s1 s2 -> same_schedule s2 s3 -> same_schedule s1 s3.
Proof. unfold same_schedule. congruence. Qed.

(** Once set, the schedule is not assigned again. *)
Lemma after_schedule_same_schedule (sTimes durs : pyval) :
  keeps same_schedule
    (let! timetype := getStartTimeType in
     setStartTimes timetype sTimes ;;
     setDurations durs).
Proof.
  unfold getStartTimeType, setStartTimes, setFixedStartTimes, setRepeatingStartTimes,
    repeating_step, setDurations, setter.
  repeat first
    [ apply (keeps_ret _ same_schedule_refl)
    | apply (keeps_raise _ same_schedule_refl)
    | apply (keeps_lift _ same_schedule_refl)
    | apply (keeps_gets _ same_schedule_refl)
    | apply (keeps_bind _ same_schedule_trans); [| intros ?]
    | apply (keeps_try_except _ same_schedule_trans); [| intros ?]
    | apply (keeps_for_each _ same_schedule_refl same_schedule_trans); intros ?
    | apply keeps_if
    | apply keeps_modify; intros ? ]; reflexivity.
Qed.

(** An interval schedule, for every program: [days0] is stored as the
    interval and [days1] as the delay. *)
Lemma interval_program_schedule
    (pname : pyval) (flags : Z) (days0 days1 sTimes durs : pyval) :
  Z.testbit flags 4 || Z.testbit flags 5 = true ->
  exists p,
    new pname (PInt flags) days0 days1 sTimes durs = Returned p /\
    program_schedule_type p = "Interval" /\
    program_schedule p = [IntervalEntry days0 days1].
Proof.
  intros Hbits.
  destruct (init_int_flags pname flags days0 days1 sTimes durs class_attributes)
    as (p & Hinit & Hp & Hsame).
  exists p. unfold new. rewrite Hinit. split; [reflexivity|]. split.
  - destruct Hsame as (_ & _ & _ & _ & Ht & _). rewrite Ht. simpl.
    unfold schedule_type_of. rewrite Hbits. reflexivity.
  - subst p. unfold init_fields, getScheduleType. rewrite bind_gets.
    simpl program_schedule_type. unfold schedule_type_of. rewrite Hbits.
    unfold bind at 1. rewrite setSchedule_interval by reflexivity.
    apply (after_schedule_same_schedule sTimes durs).
Qed.

End ProgramFacts.

(** C5. For every integer [flags] the program holds: enabled = bit 0,
    useWeatherAdjustment = bit 1, restriction 'Odd' if bit 2, else 'Even' if
    bit 3, else 'None', scheduleType 'Interval' if bit 4 or bit 5 is set,
    else 'Weekday', and startTimeType 'Fixed' if bit 6, else 'Repeating';
    whatever the other arguments of the constructor are. *)
Theorem program_flags_decoding
    (pname : pyval) (flags : Z) (days0 days1 sTimes durs : pyval) :
  exists p,
    OpenSprinklerProgram.new pname (PInt flags) days0 days1 sTimes durs = Returned p /\
    program_enabled p = Z.testbit flags 0 /\
    program_use_weather_adjustment p = Z.testbit flags 1 /\
    program_restriction p =
      (if Z.testbit flags 2 then "Odd" else if Z.testbit flags 3 then "Even" else "None") /\
    program_schedule_type p =
      (if Z.testbit flags 4 || Z.testbit flags 5 then "Interval" else "Weekday") /\
    program_start_time_type p =
      (if Z.testbit flags 6 then "Fixed" else "Repeating").
Proof.
  destruct (ProgramFacts.init_int_flags pname flags days0 days1 sTimes durs
              OpenSprinklerProgram.class_attributes) as (p & Hinit & _ & Hsame).
  exists p. unfold OpenSprinklerProgram.new. rewrite Hinit.
  split; [reflexivity|].
  destruct Hsame as (_ & He & Hw & Hr & Hs & Ht).
  rewrite He, Hw, Hr, Hs, Ht. repeat split.
Qed.

(** Flags [0b00000001]: enabled only. *)
Example program_flags_enabled_only :
  exists p,
    OpenSprinklerProgram.new (PStr "Lawn") (PInt 1) (PInt 0) (PInt 0) (PList []) (PList [])
      = Returned p /\
    program_enabled p = true /\
    program_use_weather_adjustment p = false /\
    program_restriction p = "None" /\
    program_schedule_type p = "Weekday" /\
    program_start_time_type p = "Repeating".
Proof. eexists. split; [vm_compute; reflexivity|]. repeat split. Qed.

(** C2, on the code.  With bit 4 set, [days0 = 5] and [days1 = 3], the
    schedule is the one entry with interval 5 and delay 3: [setSchedule]
    passes [(d1, d0)] to [setIntervalSchedule(self, d0, d1)], which stores its
    first argument as the delay. *)
Theorem interval_schedule_days_exchanged :
  exists p e,
    OpenSprinklerProgram.new (PStr "Lawn") (PInt 16) (PInt 5) (PInt 3) (PList []) (PList [])
      = Returned p /\
    program_schedule_type p = "Interval" /\
    program_schedule p = [e] /\
    entry_interval e = Some (PInt 5) /\
    entry_delay e = Some (PInt 3).
Proof.
  eexists _, _. split; [vm_compute; reflexivity|]. repeat split.
Qed.

(** C4 as it is stated fails on a negative entry: the raw start time [-1]
    is not zero, and the program decodes nothing from it. *)
Lemma repeating_start_time_negative_entry :
  ~ (forall (flags : Z) (ts : list Z) (t : Z),
       Z.testbit flags 6 = false ->
       In t ts -> t <> 0%Z ->
       exists p,
         OpenSprinklerProgram.new (PStr "Lawn") (PInt flags) (PInt 0) (PInt 0)
           (PList (map PInt ts)) (PList []) = Returned p /\
         In (decode_repeating t) (program_repeating_start_times p)).
Proof.
  intros H.
  destruct (H 0%Z [(-1)%Z] (-1)%Z eq_refl (or_introl eq_refl) ltac:(discriminate))
    as (p & Hp & Hin).
  vm_compute in Hp. injection Hp as <-. exact Hin.
Qed.

(** C4, amended.  For every program whose start times are repeating (bit 6
    of [flags] clear), built from integers: every entry [t > 0] of the raw
    list gives one start time, in the order of the list, with basis 'Sunset'
    if [t & 0x2000], else 'Sunrise' if [t & 0x1000], else 'Midnight', sign
    'plus' if [t & 0x800], else 'minus', and offset [t & 0x7FF]; an entry
    [t <= 0] gives none.  These are the start times [getStartTimes]
    returns. *)
Theorem repeating_start_times_decoding
    (pname : pyval) (flags days0 : Z) (days1 : pyval) (ts : list Z) (durs : pyval) :
  Z.testbit flags 6 = false ->
  exists p,
    OpenSprinklerProgram.new pname (PInt flags) (PInt days0) days1
      (PList (map PInt ts)) durs = Returned p /\
    program_start_time_type p = "Repeating" /\
    program_repeating_start_times p =
      map (fun t =>
             mkStartTime
               (if Z.testbit t 13 then "Sunset"
                else if Z.testbit t 12 then "Sunrise" else "Midnight")
               (if Z.testbit t 11 then "plus" else "minus")
               (Z.land t 2047))
          (List.filter (fun t => (0 <? t)%Z) ts) /\
    OpenSprinklerProgram.getStartTimes p = inr (program_repeating_start_times p).
Proof.
  intros Hbit.
  destruct (ProgramFacts.init_int_flags pname flags (PInt days0) days1
              (PList (map PInt ts)) durs OpenSprinklerProgram.class_attributes)
    as (p & Hinit & Hp & _).
  exists p. unfold OpenSprinklerProgram.new. rewrite Hinit. split; [reflexivity|].
  destruct (ProgramFacts.init_fields_repeating days0 days1 ts durs
              (with_flags pname flags OpenSprinklerProgram.class_attributes))
    as [schedule Hf].
  { simpl. unfold start_time_type_of. rewrite Hbit. reflexivity. }
  rewrite Hf in Hp. subst p. simpl.
  unfold start_time_type_of. rewrite Hbit. repeat split.
Qed.

Lemma repeating_start_times_decoding_witness :
  Z.testbit 1 6 = false /\
  exists p,
    OpenSprinklerProgram.new (PStr "Lawn") (PInt 1) (PInt 65) (PInt 0)
      (PList (map PInt [10270; 0; -1; 4126]%Z)) (PList [PInt 600]) = Returned p /\
    program_start_time_type p = "Repeating" /\
    program_repeating_start_times p =
      map (fun t =>
             mkStartTime
               (if Z.testbit t 13 then "Sunset"
                else if Z.testbit t 12 then "Sunrise" else "Midnight")
               (if Z.testbit t 11 then "plus" else "minus")
               (Z.land t 2047))
          (List.filter (fun t => (0 <? t)%Z) [10270; 0; -1; 4126]%Z) /\
    OpenSprinklerProgram.getStartTimes p = inr (program_repeating_start_times p).
Proof.
  split; [reflexivity|].
  apply (repeating_start_times_decoding (PStr "Lawn") 1 65 (PInt 0)
           [10270; 0; -1; 4126]%Z (PList [PInt 600])).
  reflexivity.
Defined.

(** The raw value [0x2000 | 0x800 | 30] is Sunset plus 30; [0] is left out. *)
Example repeating_start_time_sunset_plus_30 :
  exists p,
    OpenSprinklerProgram.new (PStr "Lawn") (PInt 1) (PInt 0) (PInt 0)
      (PList [PInt 10270; PInt 0]) (PList []) = Returned p /\
    program_repeating_start_times p = [mkStartTime "Sunset" "plus" 30].
Proof. eexists. split; vm_compute; reflexivity. Qed.

(** C9, on the code.  A program with fixed start times (bit 6 set) and the
    raw start times [480, 0, 0, 0]: no start time is kept, [getStartTimes]
    returns an empty list, and the durations [600, 300] are not stored.
    [setFixedStartTimes] reads [sTimes] where its parameter is [startTimes],
    so it raises and [__init__] stops before [setDurations]. *)
Theorem fixed_start_times_not_stored :
  exists p,
    OpenSprinklerProgram.new (PStr "Lawn") (PInt 65) (PInt 127) (PInt 0)
      (PList [PInt 480; PInt 0; PInt 0; PInt 0]) (PList [PInt 600; PInt 300]) = Returned p /\
    program_start_time_type p = "Fixed" /\
    program_fixed_start_times p = [] /\
    OpenSprinklerProgram.getStartTimes p = inr [] /\
    program_zone_durations p = PList [].
Proof. eexists. split; [vm_compute; reflexivity|]. repeat split. Qed.

(** ** Stations *)

Module ControllerFacts.
Import OpenSprinklerController.

Lemma add_stations_nil h : add_stations [] h = h.
Proof.
  destruct h as [s [st pr]]. unfold add_stations. simpl. rewrite app_nil_r. reflexivity.
Qed.

Lemma add_stations_app new new' h :
  add_stations new' (add_stations new h) = add_stations (new ++ new') h.
Proof. unfold add_stations. simpl. rewrite app_assoc. reflexivity. Qed.

Lemma snapshot_value_Some (myDict : snapshot) (sec key : string) (v : pyval) :
  snapshot_value myDict sec key = Some v ->
  exists d, myDict !! sec = Some d /\ d !! key = Some v.
Proof.
  unfold snapshot_value. destruct (myDict !! sec) as [d|]; [|discriminate].
  intros H. exists d. split; [reflexivity | exact H].
Qed.

Lemma lookup_key_Some {V : Type} (d : gmap string V) (k : string) (v : V) :
  d !! k = Some v -> Py.lookup_key d k = Returned v.
Proof. unfold Py.lookup_key. intros ->. reflexivity. Qed.

Lemma lookup_key_Returned {V : Type} (d : gmap string V) (k : string) (v : V) :
  Py.lookup_key d k = Returned v -> d !! k = Some v.
Proof. unfold Py.lookup_key. destruct (d !! k); [congruence | discriminate]. Qed.

(** The registry of a new controller starts with 'device_time', so the
    bound of the program loop is never obtained. *)
Lemma build_programs_raises (myDict : snapshot) (h : heap) :
  controller_properties (self h) = map (resolved myDict) property_table ->
  build_programs myDict h = (Raised (NameError "UnknownPropertyError"), h).
Proof.
  intros Hprops. unfold build_programs. rewrite bind_gets, bind_lift, Hprops.
  unfold property_table. cbn [map].
  rewrite getProperty_not_first by (rewrite resolved_name; reflexivity).
  reflexivity.
Qed.

(** One round of the station loop either raises and leaves the lists as
    they are, or appends one station, whose name it found at [idx]. *)
Lemma station_step_cases (myDict : snapshot) (b1 b2 b3 b4 : pyval) (idx : nat) (h : heap) :
  (exists e, station_step myDict b1 b2 b3 b4 idx h = (Raised e, h)) \/
  (exists st,
     station_step myDict b1 b2 b3 b4 idx h = (Returned tt, add_stations [st] h) /\
     forall names,
       snapshot_value myDict "stations" "snames" = Some (PList names) ->
       (idx < length names)%nat).
Proof.
  unfold station_step.
  rewrite bind_lift. destruct (Py.lookup_key myDict "stations") as [sec|e] eqn:Hsec;
    [|left; eauto].
  rewrite bind_lift. destruct (Py.lookup_key sec "snames") as [snames|e] eqn:Hsn;
    [|left; eauto].
  rewrite bind_lift. destruct (Py.getitem snames idx) as [nm|e] eqn:Hnm; [|left; eauto].
  repeat (rewrite bind_lift;
          match goal with
          | |- context [match ?o with Returned _ => _ | Raised _ => _ end] =>
              destruct o; [|left; eauto]
          end).
  right. eexists. split; [reflexivity|].
  intros names Hnames. unfold snapshot_value in Hnames.
  apply lookup_key_Returned in Hsec, Hsn. rewrite Hsec, Hsn in Hnames.
  injection Hnames as ->. simpl in Hnm.
  destruct (names !! idx) eqn:E; [|discriminate].
  eapply lookup_lt_Some, E.
Qed.

(** The station loop appends to the class list only, and no more stations
    than there are names from [idx] on. *)
Lemma count_up_stations_bound
    (myDict : snapshot) (b1 b2 b3 b4 : pyval) (k idx : nat) (h : heap) :
  exists r new,
    count_up k idx (station_step myDict b1 b2 b3 b4) h = (r, add_stations new h) /\
    (length new <= k)%nat /\
    forall names,
      snapshot_value myDict "stations" "snames" = Some (PList names) ->
      (length new <= length names - idx)%nat.
Proof.
  revert idx h. induction k as [|k IH]; intros idx h.
  - exists (Returned tt), []. simpl. rewrite add_stations_nil.
    split; [reflexivity|]. split; [lia|]. intros; simpl; lia.
  - cbn [count_up]. unfold bind.
    destruct (station_step_cases myDict b1 b2 b3 b4 idx h) as [[e He]|(st & Hst & Hlt)].
    + rewrite He. exists (Raised e), []. rewrite add_stations_nil.
      split; [reflexivity|]. split; [simpl; lia|]. intros; simpl; lia.
    + rewrite Hst.
      destruct (IH (Datatypes.S idx) (add_stations [st] h)) as (r & new & Hrun & Hk & Hb).
      exists r, (st :: new). rewrite Hrun, add_stations_app.
      split; [reflexivity|]. split; [simpl; lia|].
      intros names Hnames. specialize (Hlt names Hnames). specialize (Hb names Hnames).
      simpl. lia.
Qed.

Lemma build_stations_bound (myDict : snapshot) (h : heap) :
  exists r new,
    build_stations myDict h = (r, add_stations new h) /\
    forall names,
      snapshot_value myDict "stations" "snames" = Some (PList names) ->
      (length new <= length names)%nat.
Proof.
  unfold build_stations.
  repeat (rewrite bind_lift;
          match goal with
          | |- context [match ?o with Returned _ => _ | Raised _ => _ end] =>
              destruct o as [?|e];
              [| exists (Raised e), []; rewrite add_stations_nil;
                 split; [reflexivity | intros; simpl; lia] ]
          end).
  unfold while_idx_lt.
  destruct (Py.as_int _) as [n|].
  - match goal with
    | |- context [count_up ?k 0 (station_step myDict ?b1 ?b2 ?b3 ?b4) h] =>
        destruct (count_up_stations_bound myDict b1 b2 b3 b4 k 0 h)
          as (r & new & Hrun & _ & Hb)
    end.
    exists r, new. split; [exact Hrun|].
    intros names Hnames. specialize (Hb names Hnames). lia.
  - exists (Raised TypeError), []. rewrite add_stations_nil.
    split; [reflexivity | intros; simpl; lia].
Qed.

Lemma read_enabled_same_lists (myDict : snapshot) (h : heap) :
  cls (snd (read_enabled myDict h)) = cls h /\
  controller_properties (self (snd (read_enabled myDict h)))
    = controller_properties (self h).
Proof.
  unfold read_enabled.
  rewrite bind_lift. destruct (Py.lookup_key myDict "settings"); [|split; reflexivity].
  rewrite bind_lift. destruct (Py.lookup_key _ "en"); split; reflexivity.
Qed.

(** The statements under [try], on a new controller: whatever they meet,
    they leave the registry alone and append stations only. *)
Lemma build_lists_appends (myDict : snapshot) (h : heap) :
  controller_properties (self h) = map (resolved myDict) property_table ->
  exists h1 new_stations,
    snd (build_lists myDict h) = add_stations new_stations h1 /\
    cls h1 = cls h /\
    controller_properties (self h1) = controller_properties (self h) /\
    forall names,
      snapshot_value myDict "stations" "snames" = Some (PList names) ->
      (length new_stations <= length names)%nat.
Proof.
  intros Hp. unfold build_lists. unfold bind at 1.
  pose proof (read_enabled_same_lists myDict h) as [Hcls Hprops].
  destruct (read_enabled myDict h) as [[[]|e] h1]; cbn [snd] in Hcls, Hprops.
  - unfold bind at 1.
    destruct (build_stations_bound myDict h1) as (r & new_stations & Hrun & Hb).
    rewrite Hrun. exists h1, new_stations.
    split; [|split; [exact Hcls | split; [exact Hprops | exact Hb]]].
    destruct r as [[]|e]; [|reflexivity].
    rewrite build_programs_raises; [reflexivity|].
    cbn [add_stations self]. rewrite Hprops. exact Hp.
  - exists h1, []. rewrite add_stations_nil.
    split; [reflexivity|]. split; [exact Hcls|]. split; [exact Hprops|].
    intros; simpl; lia.
Qed.

(** The constructor on any snapshot and any class lists: it returns, and
    the class lists afterwards are the ones before with the stations of
    this call appended; no program is ever appended. *)
Lemma new_appends (myDict : snapshot) (c : class_lists) :
  exists ctl new_stations,
    new myDict c =
      (Returned ctl,
       mkClassLists (controller_stations c ++ new_stations) (controller_programs c)) /\
    controller_properties ctl = map (resolved myDict) property_table /\
    forall names,
      snapshot_value myDict "stations" "snames" = Some (PList names) ->
      (length new_stations <= length names)%nat.
Proof.
  unfold new, init.
  rewrite bind_modify, bind_lift.
  rewrite (resolve_properties_resolved _ _ property_table_well_keyed).
  rewrite bind_modify, try_except_swallows.
  set (h0 := assign_properties _ (assign_properties _ _)).
  destruct (build_lists_appends myDict h0 eq_refl) as (h1 & new_stations & Hrun & Hcls & Hprops & Hb).
  rewrite Hrun. exists (self h1), new_stations.
  split; [|split; [exact Hprops | exact Hb]].
  cbn [add_stations self cls]. rewrite Hcls. reflexivity.
Qed.


(** *** A snapshot with everything the station loop reads *)

Section ValidSnapshot.
Variable myDict : snapshot.
Variables (ir sq ds sp n : Z) (ir_more sq_more ds_more sp_more names sns : list pyval).

Hypothesis H_ir :
  snapshot_value myDict "stations" "ignore_rain" = Some (PList (PInt ir :: ir_more)).
Hypothesis H_sq :
  snapshot_value myDict "stations" "stn_seq" = Some (PList (PInt sq :: sq_more)).
Hypothesis H_ds :
  snapshot_value myDict "stations" "stn_dis" = Some (PList (PInt ds :: ds_more)).
Hypothesis H_sp :
  snapshot_value myDict "stations" "stn_spe" = Some (PList (PInt sp :: sp_more)).
Hypothesis H_names : snapshot_value myDict "stations" "snames" = Some (PList names).
Hypothesis H_sns : snapshot_value myDict "status" "sn" = Some (PList sns).
Hypothesis H_n : snapshot_value myDict "status" "nstations" = Some (PInt n).

Lemma station_step_valid (idx : nat) (h : heap) :
  (idx < length names)%nat -> (idx < length sns)%nat ->
  station_step myDict (PInt ir) (PInt sq) (PInt ds) (PInt sp) idx h
  = (Returned tt, add_stations [station_of names sns ir sq ds sp idx] h).
Proof.
  intros Hnm Hst.
  destruct (snapshot_value_Some _ _ _ _ H_names) as (stations & Hsec & Hsnames).
  destruct (snapshot_value_Some _ _ _ _ H_sns) as (status_section & Hsec' & Hsn).
  destruct (lookup_lt_is_Some_2 names idx Hnm) as [nm Enm].
  destruct (lookup_lt_is_Some_2 sns idx Hst) as [st Est].
  unfold station_step.
  rewrite bind_lift, (lookup_key_Some _ _ _ Hsec).
  rewrite bind_lift, (lookup_key_Some _ _ _ Hsnames).
  rewrite bind_lift. cbn [Py.getitem]. rewrite Enm.
  rewrite bind_lift, (lookup_key_Some _ _ _ Hsec').
  rewrite bind_lift, (lookup_key_Some _ _ _ Hsn).
  rewrite bind_lift. cbn [Py.getitem]. rewrite Est.
  unfold station_of.
  rewrite (nth_lookup_Some _ _ PNone _ Enm), (nth_lookup_Some _ _ PNone _ Est).
  reflexivity.
Qed.

Lemma count_up_valid (k idx : nat) (h : heap) :
  (idx + k <= length names)%nat -> (idx + k <= length sns)%nat ->
  count_up k idx (station_step myDict (PInt ir) (PInt sq) (PInt ds) (PInt sp)) h
  = (Returned tt, add_stations (map (station_of names sns ir sq ds sp) (seq idx k)) h).
Proof.
  revert idx h. induction k as [|k IH]; intros idx h Hnm Hst.
  - simpl. rewrite add_stations_nil. reflexivity.
  - cbn [count_up seq map]. unfold bind.
    rewrite station_step_valid by lia.
    rewrite IH by lia. rewrite add_stations_app. reflexivity.
Qed.

Lemma build_stations_valid (h : heap) :
  (Z.to_nat n <= length names)%nat -> (Z.to_nat n <= length sns)%nat ->
  build_stations myDict h
  = (Returned tt,
     add_stations (map (station_of names sns ir sq ds sp) (seq 0 (Z.to_nat n))) h).
Proof.
  intros Hnm Hst.
  destruct (snapshot_value_Some _ _ _ _ H_ir) as (stations & Hsec & Hir).
  destruct (snapshot_value_Some _ _ _ _ H_sq) as (stations1 & Hsec1 & Hsq).
  destruct (snapshot_value_Some _ _ _ _ H_ds) as (stations2 & Hsec2 & Hds).
  destruct (snapshot_value_Some _ _ _ _ H_sp) as (stations3 & Hsec3 & Hsp).
  destruct (snapshot_value_Some _ _ _ _ H_n) as (status_section & Hsec' & Hn).
  assert (stations1 = stations) as -> by congruence.
  assert (stations2 = stations) as -> by congruence.
  assert (stations3 = stations) as -> by congruence.
  unfold build_stations.
  rewrite bind_lift, (lookup_key_Some _ _ _ Hsec).
  rewrite bind_lift, (lookup_key_Some _ _ _ Hir), bind_lift. cbn [Py.getitem lookup list_lookup].
  rewrite bind_lift, (lookup_key_Some _ _ _ Hsq), bind_lift. cbn [Py.getitem lookup list_lookup].
  rewrite bind_lift, (lookup_key_Some _ _ _ Hds), bind_lift. cbn [Py.getitem lookup list_lookup].
  rewrite bind_lift, (lookup_key_Some _ _ _ Hsp), bind_lift. cbn [Py.getitem lookup list_lookup].
  rewrite bind_lift, (lookup_key_Some _ _ _ Hsec').
  rewrite bind_lift, (lookup_key_Some _ _ _ Hn).
  unfold while_idx_lt. cbn [Py.as_int].
  apply count_up_valid; simpl; assumption.
Qed.

(** The flags of the station built at [idx] are the bits [idx] of the
    four bytes. *)
Lemma station_of_flags (idx : nat) :
  let st := station_of names sns ir sq ds sp idx in
  station_id st = Z.of_nat idx /\
  negb (ignore_rain_flag st =? 0)%Z = Z.testbit ir (Z.of_nat idx) /\
  negb (is_sequential_flag st =? 0)%Z = Z.testbit sq (Z.of_nat idx) /\
  negb (is_disabled_flag st =? 0)%Z = Z.testbit ds (Z.of_nat idx) /\
  negb (is_special_flag st =? 0)%Z = Z.testbit sp (Z.of_nat idx).
Proof.
  simpl. rewrite !mask_truthy by lia. repeat split.
Qed.

(** The constructor on such a snapshot, when 'settings' has 'en'. *)
Lemma new_valid (c : class_lists) (en : pyval) :
  snapshot_value myDict "settings" "en" = Some en ->
  (Z.to_nat n <= length names)%nat -> (Z.to_nat n <= length sns)%nat ->
  exists ctl,
    new myDict c =
      (Returned ctl,
       mkClassLists
         (controller_stations c
            ++ map (station_of names sns ir sq ds sp) (seq 0 (Z.to_nat n)))
         (controller_programs c)) /\
    controller_enabled ctl = Py.truthy en.
Proof.
  intros Hen Hnm Hst.
  destruct (snapshot_value_Some _ _ _ _ Hen) as (settings & Hsec & Hen').
  unfold new, init.
  rewrite bind_modify, bind_lift.
  rewrite (resolve_properties_resolved _ _ property_table_well_keyed).
  rewrite bind_modify, try_except_swallows.
  set (h0 := assign_properties _ (assign_properties _ _)).
  assert (snd (build_lists myDict h0)
          = add_stations (map (station_of names sns ir sq ds sp) (seq 0 (Z.to_nat n)))
              (assign_enabled (Py.truthy en) h0)) as Hrun.
  { unfold build_lists, read_enabled.
    rewrite bind_assoc, bind_lift, (lookup_key_Some _ _ _ Hsec).
    rewrite bind_assoc, bind_lift, (lookup_key_Some _ _ _ Hen').
    rewrite bind_modify. unfold bind at 1.
    rewrite build_stations_valid by assumption.
    rewrite build_programs_raises by reflexivity. reflexivity. }
  rewrite Hrun. eexists. split; reflexivity.
Qed.

End ValidSnapshot.

End ControllerFacts.

(** C6. On a snapshot that has everything the station loop reads (the four
    one-byte lists, as many names and status codes as [nstations] says), the
    constructor appends [nstations] stations, and the station built at index
    [idx] has its ignore-rain flag true exactly when bit [idx] of
    [ignore_rain[0]] is set, and likewise its sequential, disabled and
    special flags against [stn_seq[0]], [stn_dis[0]] and [stn_spe[0]]: the
    same byte for every [idx]. *)
Theorem station_flags_decoding
    (myDict : snapshot) (c : class_lists) (en : pyval) (ir sq ds sp n : Z)
    (ir_more sq_more ds_more sp_more names sns : list pyval) :
  snapshot_value myDict "settings" "en" = Some en ->
  snapshot_value myDict "stations" "ignore_rain" = Some (PList (PInt ir :: ir_more)) ->
  snapshot_value myDict "stations" "stn_seq" = Some (PList (PInt sq :: sq_more)) ->
  snapshot_value myDict "stations" "stn_dis" = Some (PList (PInt ds :: ds_more)) ->
  snapshot_value myDict "stations" "stn_spe" = Some (PList (PInt sp :: sp_more)) ->
  snapshot_value myDict "stations" "snames" = Some (PList names) ->
  snapshot_value myDict "status" "sn" = Some (PList sns) ->
  snapshot_value myDict "status" "nstations" = Some (PInt n) ->
  (Z.to_nat n <= length names)%nat ->
  (Z.to_nat n <= length sns)%nat ->
  exists ctl c' new_stations,
    OpenSprinklerController.new myDict c = (Returned ctl, c') /\
    OpenSprinklerController.getStations ctl c' = controller_stations c ++ new_stations /\
    length new_stations = Z.to_nat n /\
    forall idx : nat,
      (idx < Z.to_nat n)%nat ->
      exists st,
        new_stations !! idx = Some st /\
        station_id st = Z.of_nat idx /\
        names !! idx = Some (station_name st) /\
        sns !! idx = Some (status st) /\
        Py.truthy (PInt (OpenSprinklerStation.getIgnoreRainFlag st))
          = Z.testbit ir (Z.of_nat idx) /\
        Py.truthy (PInt (OpenSprinklerStation.getSequentialFlag st))
          = Z.testbit sq (Z.of_nat idx) /\
        Py.truthy (PInt (OpenSprinklerStation.getDisabledFlag st))
          = Z.testbit ds (Z.of_nat idx) /\
        Py.truthy (PInt (OpenSprinklerStation.getSpecialFlag st))
          = Z.testbit sp (Z.of_nat idx).
Proof.
  intros Hen Hir Hsq Hds Hsp Hnames Hsns Hn Hlen Hlen'.
  destruct (ControllerFacts.new_valid myDict ir sq ds sp n ir_more sq_more ds_more sp_more
              names sns Hir Hsq Hds Hsp Hnames Hsns Hn c en Hen Hlen Hlen')
    as (ctl & Hnew & _).
  eexists ctl, _, _. split; [exact Hnew|]. split; [reflexivity|]. split.
  - rewrite length_map, length_seq. reflexivity.
  - intros idx Hidx.
    exists (station_of names sns ir sq ds sp idx). split.
    + rewrite list_lookup_fmap, lookup_seq_lt by exact Hidx. reflexivity.
    + destruct (lookup_lt_is_Some_2 names idx ltac:(lia)) as [nm Enm].
      destruct (lookup_lt_is_Some_2 sns idx ltac:(lia)) as [st Est].
      pose proof (ControllerFacts.station_of_flags ir sq ds sp names sns idx)
        as (Hid & H1 & H2 & H3 & H4).
      split; [exact Hid|].
      split; [simpl; rewrite (nth_lookup_Some _ _ PNone _ Enm); exact Enm|].
      split; [simpl; rewrite (nth_lookup_Some _ _ PNone _ Est); exact Est|].
      repeat split; assumption.
Qed.

Lemma station_flags_decoding_witness :
  snapshot_value sample_snapshot "settings" "en" = Some (PInt 1) /\
  snapshot_value sample_snapshot "stations" "ignore_rain" = Some (PList (PInt 5 :: [])) /\
  snapshot_value sample_snapshot "stations" "stn_seq" = Some (PList (PInt 7 :: [])) /\
  snapshot_value sample_snapshot "stations" "stn_dis" = Some (PList (PInt 2 :: [])) /\
  snapshot_value sample_snapshot "stations" "stn_spe" = Some (PList (PInt 0 :: [])) /\
  snapshot_value sample_snapshot "stations" "snames"
    = Some (PList [PStr "Lawn"; PStr "Beds"; PStr "Drip"]) /\
  snapshot_value sample_snapshot "status" "sn" = Some (PList [PInt 0; PInt 1; PInt 0]) /\
  snapshot_value sample_snapshot "status" "nstations" = Some (PInt 3) /\
  (Z.to_nat 3 <= length [PStr "Lawn"; PStr "Beds"; PStr "Drip"])%nat /\
  (Z.to_nat 3 <= length [PInt 0; PInt 1; PInt 0])%nat /\
  exists ctl c' new_stations,
    OpenSprinklerController.new sample_snapshot OpenSprinklerController.class_attributes
      = (Returned ctl, c') /\
    OpenSprinklerController.getStations ctl c'
      = controller_stations OpenSprinklerController.class_attributes ++ new_stations /\
    length new_stations = Z.to_nat 3 /\
    forall idx : nat,
      (idx < Z.to_nat 3)%nat ->
      exists st,
        new_stations !! idx = Some st /\
        station_id st = Z.of_nat idx /\
        [PStr "Lawn"; PStr "Beds"; PStr "Drip"] !! idx = Some (station_name st) /\
        [PInt 0; PInt 1; PInt 0] !! idx = Some (status st) /\
        Py.truthy (PInt (OpenSprinklerStation.getIgnoreRainFlag st))
          = Z.testbit 5 (Z.of_nat idx) /\
        Py.truthy (PInt (OpenSprinklerStation.getSequentialFlag st))
          = Z.testbit 7 (Z.of_nat idx) /\
        Py.truthy (PInt (OpenSprinklerStation.getDisabledFlag st))
          = Z.testbit 2 (Z.of_nat idx) /\
        Py.truthy (PInt (OpenSprinklerStation.getSpecialFlag st))
          = Z.testbit 0 (Z.of_nat idx).
Proof.
  do 8 (split; [vm_compute; reflexivity|]).
  split; [simpl; lia|]. split; [simpl; lia|].
  apply (station_flags_decoding sample_snapshot OpenSprinklerController.class_attributes
           (PInt 1) 5 7 2 0 3 [] [] [] []
           [PStr "Lawn"; PStr "Beds"; PStr "Drip"] [PInt 0; PInt 1; PInt 0]);
    try (vm_compute; reflexivity); simpl; lia.
Defined.

(** [ignore_rain = [0b00000101]]: stations 0 and 2 ignore rain, station 1
    does not. *)
Example ignore_rain_byte_5 :
  map (fun st => Py.truthy (PInt (OpenSprinklerStation.getIgnoreRainFlag st)))
      (controller_stations
         (snd (OpenSprinklerController.new sample_snapshot
                 OpenSprinklerController.class_attributes)))
  = [true; false; true].
Proof. vm_compute. reflexivity. Qed.

(** With one byte per mask, a station from index 8 on has every flag 0. *)
Lemma station_flag_beyond_byte (byte : Z) (idx : nat) :
  (0 <= byte < 256)%Z -> (8 <= idx)%nat -> Z.land byte (2 ^ Z.of_nat idx) = 0%Z.
Proof.
  intros Hb Hidx. rewrite land_pow2 by lia.
  rewrite (byte_high_bits byte (Z.of_nat idx) Hb) by lia. reflexivity.
Qed.

(** C3 as it is stated fails: the snapshot reports three stations and two
    names, and the constructor raises nothing; it returns a controller,
    enabled, with the two stations built before the missing name. *)
Lemma short_snapshot_is_assembled :
  snapshot_value short_snapshot "status" "nstations" = Some (PInt 3) /\
  snapshot_value short_snapshot "stations" "snames"
    = Some (PList [PStr "Lawn"; PStr "Beds"]) /\
  exists ctl c',
    OpenSprinklerController.new short_snapshot OpenSprinklerController.class_attributes
      = (Returned ctl, c') /\
    OpenSprinklerController.isEnabled ctl = true /\
    map station_name (OpenSprinklerController.getStations ctl c')
      = [PStr "Lawn"; PStr "Beds"].
Proof.
  split; [vm_compute; reflexivity|]. split; [vm_compute; reflexivity|].
  eexists _, _. split; [vm_compute; reflexivity|]. split; reflexivity.
Qed.

(** C8, on the code.  Two controllers built one after the other from the
    sample snapshot, in a process that has just loaded the module: each
    registry says three stations and one program, yet the first controller
    has no program, and after the second construction both controllers have
    six stations, the two constructors having appended to the one list of
    the class. *)
Theorem lists_do_not_match_counts :
  exists ctl1 c1 ctl2 c2,
    OpenSprinklerController.new sample_snapshot OpenSprinklerController.class_attributes
      = (Returned ctl1, c1) /\
    OpenSprinklerController.new sample_snapshot c1 = (Returned ctl2, c2) /\
    listed_value (getProperties (controller_properties ctl1)) "num_stations"
      = Some (PInt 3) /\
    listed_value (getProperties (controller_properties ctl1)) "num_programs"
      = Some (PInt 1) /\
    listed_value (getProperties (controller_properties ctl2)) "num_stations"
      = Some (PInt 3) /\
    length (OpenSprinklerController.getStations ctl1 c1) = 3%nat /\
    length (OpenSprinklerController.getPrograms ctl1 c1) = 0%nat /\
    length (OpenSprinklerController.getStations ctl2 c2) = 6%nat /\
    length (OpenSprinklerController.getStations ctl1 c2) = 6%nat /\
    length (OpenSprinklerController.getPrograms ctl2 c2) = 0%nat.
Proof.
  eexists _, _, _, _.
  split; [vm_compute; reflexivity|].
  split; [vm_compute; reflexivity|].
  repeat split; vm_compute; reflexivity.
Qed.

(** * Further properties of the code *)

(** ** Writing to the registry *)

Module RegistryFacts.

(** [setProperty] as one pass over the list: the entries of that name get
    the value, the others stay. *)
Lemma setProperty_map (props : list property) (name : string) (v : pyval) :
  setProperty props name v =
  (Returned PNone,
   map (fun prop => if String.eqb (p_name prop) name then set_val v prop else prop) props).
Proof.
  induction props as [|prop rest IH]; simpl; [reflexivity|].
  rewrite IH. destruct (String.eqb (p_name prop) name); reflexivity.
Qed.

Lemma listed_value_written (props : list property) (name : string) (v : pyval) :
  In name (map p_name props) ->
  listed_value
    (getProperties
       (map (fun prop => if String.eqb (p_name prop) name then set_val v prop else prop) props))
    name = Some v.
Proof.
  induction props as [|prop rest IH]; simpl; [contradiction|].
  intros [Hhead|Htail].
  - subst name. rewrite String.eqb_refl. simpl. rewrite String.eqb_refl. reflexivity.
  - destruct (String.eqb (p_name prop) name) eqn:E; simpl; rewrite E.
    + reflexivity.
    + apply IH, Htail.
Qed.

Lemma listed_value_other (props : list property) (name other : string) (v : pyval) :
  other <> name ->
  listed_value
    (getProperties
       (map (fun prop => if String.eqb (p_name prop) name then set_val v prop else prop) props))
    other
  = listed_value (getProperties props) other.
Proof.
  intros Hne. induction props as [|prop rest IH]; simpl; [reflexivity|].
  destruct (String.eqb (p_name prop) name) eqn:E; simpl.
  - apply String.eqb_eq in E.
    destruct (String.eqb_spec (p_name prop) other) as [E'|_]; [congruence | exact IH].
  - rewrite IH. reflexivity.
Qed.

End RegistryFacts.

(** X1. Writing a registered property and reading the listing back: the call
    returns [None], the listing then gives the written value under that
    name, the value listed under every other name is what it was, and the
    enabled flag of the controller is not touched. *)
Theorem setProperty_then_listed (ctl : Controller) (name : string) (v : pyval) :
  In name (map p_name (controller_properties ctl)) ->
  exists ctl',
    OpenSprinklerController.setProperty ctl name v = (Returned PNone, ctl') /\
    listed_value (getProperties (controller_properties ctl')) name = Some v /\
    (forall other : string,
       other <> name ->
       listed_value (getProperties (controller_properties ctl')) other
       = listed_value (getProperties (controller_properties ctl)) other) /\
    OpenSprinklerController.isEnabled ctl' = OpenSprinklerController.isEnabled ctl.
Proof.
  intros Hin. unfold OpenSprinklerController.setProperty.
  rewrite RegistryFacts.setProperty_map. eexists. split; [reflexivity|].
  cbn [controller_properties]. split.
  - apply RegistryFacts.listed_value_written, Hin.
  - split; [|reflexivity].
    intros other Hne. apply RegistryFacts.listed_value_other, Hne.
Qed.

Lemma setProperty_then_listed_witness :
  In "water_level" (map p_name (controller_properties (mkController property_table true))) /\
  exists ctl',
    OpenSprinklerController.setProperty (mkController property_table true)
      "water_level" (PInt 80) = (Returned PNone, ctl') /\
    listed_value (getProperties (controller_properties ctl')) "water_level"
      = Some (PInt 80) /\
    (forall other : string,
       other <> "water_level" ->
       listed_value (getProperties (controller_properties ctl')) other
       = listed_value
           (getProperties (controller_properties (mkController property_table true))) other) /\
    OpenSprinklerController.isEnabled ctl'
      = OpenSprinklerController.isEnabled (mkController property_table true).
Proof.
  assert (In "water_level"
            (map p_name (controller_properties (mkController property_table true)))) as Hin.
  { simpl. do 46 right. left. reflexivity. }
  split; [exact Hin|].
  apply (setProperty_then_listed (mkController property_table true) "water_level" (PInt 80)).
  exact Hin.
Defined.

(** X2. Whatever the name and the value, [setProperty] keeps the registry's
    shape: the listing has the same names in the same order (so as many
    entries), and no entry changes its source, abbreviation or formula. *)
Theorem setProperty_keeps_names (ctl : Controller) (name : string) (v : pyval) :
  let ctl' := snd (OpenSprinklerController.setProperty ctl name v) in
  map fst (getProperties (controller_properties ctl'))
    = map fst (getProperties (controller_properties ctl)) /\
  map p_source (controller_properties ctl') = map p_source (controller_properties ctl) /\
  map p_abbrev (controller_properties ctl') = map p_abbrev (controller_properties ctl) /\
  map p_formula (controller_properties ctl') = map p_formula (controller_properties ctl).
Proof.
  unfold OpenSprinklerController.setProperty.
  rewrite RegistryFacts.setProperty_map. cbn [snd controller_properties].
  unfold getProperties. rewrite !map_map.
  repeat split; apply map_ext; intros prop;
    destruct (String.eqb (p_name prop) name); reflexivity.
Qed.

(** X3. The last write wins: two writes to one name leave the registry as
    the second write alone does. *)
Theorem setProperty_last_write_wins (ctl : Controller) (name : string) (v1 v2 : pyval) :
  snd (OpenSprinklerController.setProperty
         (snd (OpenSprinklerController.setProperty ctl name v1)) name v2)
  = snd (OpenSprinklerController.setProperty ctl name v2).
Proof.
  unfold OpenSprinklerController.setProperty.
  rewrite !RegistryFacts.setProperty_map. cbn [snd controller_properties controller_enabled].
  rewrite ?RegistryFacts.setProperty_map. cbn [snd]. f_equal.
  rewrite map_map. apply map_ext. intros prop.
  destruct (String.eqb (p_name prop) name) eqn:E; simpl; rewrite E; reflexivity.
Qed.

(** X4. Writes to two different names can be made in either order. *)
Theorem setProperty_commutes (ctl : Controller) (n1 n2 : string) (v1 v2 : pyval) :
  n1 <> n2 ->
  snd (OpenSprinklerController.setProperty
         (snd (OpenSprinklerController.setProperty ctl n1 v1)) n2 v2)
  = snd (OpenSprinklerController.setProperty
           (snd (OpenSprinklerController.setProperty ctl n2 v2)) n1 v1).
Proof.
  intros Hne. unfold OpenSprinklerController.setProperty.
  rewrite !RegistryFacts.setProperty_map. cbn [snd controller_properties controller_enabled].
  rewrite ?RegistryFacts.setProperty_map. cbn [snd]. f_equal.
  rewrite !map_map. apply map_ext. intros prop.
  destruct (String.eqb (p_name prop) n1) eqn:E1; simpl;
    destruct (String.eqb (p_name prop) n2) eqn:E2; simpl; rewrite ?E1, ?E2;
    try reflexivity.
  apply String.eqb_eq in E1, E2. congruence.
Qed.

Lemma setProperty_commutes_witness :
  "water_level" <> "rain_delay" /\
  snd (OpenSprinklerController.setProperty
         (snd (OpenSprinklerController.setProperty (mkController property_table true)
                 "water_level" (PInt 80))) "rain_delay" (PInt 1))
  = snd (OpenSprinklerController.setProperty
           (snd (OpenSprinklerController.setProperty (mkController property_table true)
                   "rain_delay" (PInt 1))) "water_level" (PInt 80)).
Proof.
  split; [discriminate|].
  apply (setProperty_commutes (mkController property_table true)
           "water_level" "rain_delay" (PInt 80) (PInt 1)).
  discriminate.
Defined.

(** ** The constructor, further *)

Module ConstructorFacts.
Import OpenSprinklerController.




(** The heap on which the statements under [try] start. *)
Lemma new_unfold (myDict : snapshot) (c : class_lists) :
  new myDict c =
  (Returned
     (self (snd (build_lists myDict
                   (mkHeap (mkController (map (resolved myDict) property_table) false) c)))),
   cls (snd (build_lists myDict
               (mkHeap (mkController (map (resolved myDict) property_table) false) c)))).
Proof.
  unfold new, init.
  rewrite bind_modify, bind_lift.
  rewrite (resolve_properties_resolved _ _ property_table_well_keyed).
  rewrite bind_modify, try_except_swallows. reflexivity.
Qed.

Lemma read_enabled_present (myDict : snapshot) (en : pyval) (h : heap) :
  snapshot_value myDict "settings" "en" = Some en ->
  read_enabled myDict h = (Returned tt, assign_enabled (Py.truthy en) h).
Proof.
  intros Hen.
  destruct (ControllerFacts.snapshot_value_Some _ _ _ _ Hen) as (settings & Hsec & Hen').
  unfold read_enabled.
  rewrite bind_lift, (ControllerFacts.lookup_key_Some _ _ _ Hsec).
  rewrite bind_lift, (ControllerFacts.lookup_key_Some _ _ _ Hen'). reflexivity.
Qed.

Lemma read_enabled_absent (myDict : snapshot) (h : heap) :
  snapshot_value myDict "settings" "en" = None ->
  exists e, read_enabled myDict h = (Raised e, h).
Proof.
  unfold snapshot_value, read_enabled, Py.lookup_key. intros Hen.
  rewrite bind_lift.
  destruct (myDict !! "settings") as [settings|]; [|eexists; reflexivity].
  rewrite bind_lift, Hen. eexists; reflexivity.
Qed.

(** Without 'settings' or without its 'en', the statements under [try]
    stop at once. *)
Lemma build_lists_absent (myDict : snapshot) (h : heap) :
  snapshot_value myDict "settings" "en" = None ->
  snd (build_lists myDict h) = h.
Proof.
  intros Hen. destruct (read_enabled_absent myDict h Hen) as [e He].
  unfold build_lists. unfold bind at 1. rewrite He. reflexivity.
Qed.

Lemma build_lists_present (myDict : snapshot) (en : pyval) (h : heap) :
  snapshot_value myDict "settings" "en" = Some en ->
  snd (build_lists myDict h)
  = snd ((build_stations myDict ;; build_programs myDict)
           (assign_enabled (Py.truthy en) h)).
Proof.
  intros Hen. unfold build_lists. unfold bind at 1.
  rewrite (read_enabled_present _ _ _ Hen). reflexivity.
Qed.


End ConstructorFacts.


(** X6. A snapshot without [settings.en] (no 'settings', or no 'en' in it):
    the constructor returns a controller with its registry resolved, not
    enabled, and appends nothing to the class lists, whatever the snapshot
    says about stations and programs. *)
Theorem missing_enabled_builds_nothing (myDict : snapshot) (c : class_lists) :
  snapshot_value myDict "settings" "en" = None ->
  OpenSprinklerController.new myDict c
  = (Returned (mkController (map (resolved myDict) property_table) false), c).
Proof.
  intros Hen. rewrite ConstructorFacts.new_unfold.
  rewrite (ConstructorFacts.build_lists_absent _ _ Hen). reflexivity.
Qed.

Lemma missing_enabled_builds_nothing_witness :
  snapshot_value unsettled_snapshot "settings" "en" = None /\
  OpenSprinklerController.new unsettled_snapshot OpenSprinklerController.class_attributes
  = (Returned (mkController (map (resolved unsettled_snapshot) property_table) false),
     OpenSprinklerController.class_attributes).
Proof.
  split; [vm_compute; reflexivity|].
  apply (missing_enabled_builds_nothing unsettled_snapshot
           OpenSprinklerController.class_attributes).
  vm_compute. reflexivity.
Defined.

(** ** The station loop, exactly *)

Module StationLoopFacts.
Import OpenSprinklerController.

Section Arrays.
Variable myDict : snapshot.
Variables (b_ir b_sq b_ds b_sp v_n : pyval) (ir sq ds sp n : Z).
Variables (ir_more sq_more ds_more sp_more names sns : list pyval).

Hypothesis H_ir :
  snapshot_value myDict "stations" "ignore_rain" = Some (PList (b_ir :: ir_more)).
Hypothesis H_sq :
  snapshot_value myDict "stations" "stn_seq" = Some (PList (b_sq :: sq_more)).
Hypothesis H_ds :
  snapshot_value myDict "stations" "stn_dis" = Some (PList (b_ds :: ds_more)).
Hypothesis H_sp :
  snapshot_value myDict "stations" "stn_spe" = Some (PList (b_sp :: sp_more)).
Hypothesis H_names : snapshot_value myDict "stations" "snames" = Some (PList names).
Hypothesis H_sns : snapshot_value myDict "status" "sn" = Some (PList sns).
Hypothesis H_n : snapshot_value myDict "status" "nstations" = Some v_n.

(** The heads of the four flag lists and the station count are [int]s or
    [bool]s. *)
Hypothesis I_ir : Py.as_int b_ir = Some ir.
Hypothesis I_sq : Py.as_int b_sq = Some sq.
Hypothesis I_ds : Py.as_int b_ds = Some ds.
Hypothesis I_sp : Py.as_int b_sp = Some sp.
Hypothesis I_n : Py.as_int v_n = Some n.

(** Within both arrays, a round appends the station of its index. *)
Lemma station_step_within (idx : nat) (h : heap) :
  (idx < length names)%nat -> (idx < length sns)%nat ->
  station_step myDict b_ir b_sq b_ds b_sp idx h
  = (Returned tt, add_stations [station_of names sns ir sq ds sp idx] h).
Proof.
  intros Hnm Hst.
  destruct (ControllerFacts.snapshot_value_Some _ _ _ _ H_names) as (stations & Hsec & Hsnames).
  destruct (ControllerFacts.snapshot_value_Some _ _ _ _ H_sns) as (status_section & Hsec' & Hsn).
  destruct (lookup_lt_is_Some_2 names idx Hnm) as [nm Enm].
  destruct (lookup_lt_is_Some_2 sns idx Hst) as [st Est].
  unfold station_step.
  rewrite bind_lift, (ControllerFacts.lookup_key_Some _ _ _ Hsec).
  rewrite bind_lift, (ControllerFacts.lookup_key_Some _ _ _ Hsnames).
  rewrite bind_lift. cbn [Py.getitem]. rewrite Enm.
  rewrite bind_lift, (ControllerFacts.lookup_key_Some _ _ _ Hsec').
  rewrite bind_lift, (ControllerFacts.lookup_key_Some _ _ _ Hsn).
  rewrite bind_lift. cbn [Py.getitem]. rewrite Est.
  unfold Py.and_. rewrite I_ir, I_ds, I_sq, I_sp.
  unfold station_of.
  rewrite (nth_lookup_Some _ _ PNone _ Enm), (nth_lookup_Some _ _ PNone _ Est).
  reflexivity.
Qed.

(** Past the end of the names or of the status codes, a round raises and
    appends nothing. *)
Lemma station_step_past_end (idx : nat) (h : heap) :
  (length names <= idx \/ length sns <= idx)%nat ->
  exists e, station_step myDict b_ir b_sq b_ds b_sp idx h = (Raised e, h).
Proof.
  intros Hpast.
  destruct (ControllerFacts.snapshot_value_Some _ _ _ _ H_names) as (stations & Hsec & Hsnames).
  destruct (ControllerFacts.snapshot_value_Some _ _ _ _ H_sns) as (status_section & Hsec' & Hsn).
  unfold station_step.
  rewrite bind_lift, (ControllerFacts.lookup_key_Some _ _ _ Hsec).
  rewrite bind_lift, (ControllerFacts.lookup_key_Some _ _ _ Hsnames).
  rewrite bind_lift. cbn [Py.getitem].
  destruct (names !! idx) as [nm|] eqn:Enm; [|eexists; reflexivity].
  rewrite bind_lift, (ControllerFacts.lookup_key_Some _ _ _ Hsec').
  rewrite bind_lift, (ControllerFacts.lookup_key_Some _ _ _ Hsn).
  rewrite bind_lift. cbn [Py.getitem].
  destruct (sns !! idx) as [st|] eqn:Est; [|eexists; reflexivity].
  apply lookup_lt_Some in Enm, Est. lia.
Qed.

(** The loop runs until its bound or the end of the shorter array,
    whichever comes first. *)
Lemma count_up_exact (k idx : nat) (h : heap) :
  exists r,
    count_up k idx (station_step myDict b_ir b_sq b_ds b_sp) h
    = (r,
       add_stations
         (map (station_of names sns ir sq ds sp)
              (seq idx (Nat.min k (Nat.min (length names) (length sns) - idx))))
         h).
Proof.
  revert idx h. induction k as [|k IH]; intros idx h.
  - exists (Returned tt). simpl. rewrite ControllerFacts.add_stations_nil. reflexivity.
  - cbn [count_up]. unfold bind.
    destruct (Nat.lt_ge_cases idx (Nat.min (length names) (length sns))) as [Hin|Hout].
    + rewrite station_step_within by lia.
      destruct (IH (Datatypes.S idx)
                  (add_stations [station_of names sns ir sq ds sp idx] h)) as [r Hr].
      exists r. rewrite Hr, ControllerFacts.add_stations_app.
      replace (Nat.min (Datatypes.S k) (Nat.min (length names) (length sns) - idx))
        with (Datatypes.S
                (Nat.min k (Nat.min (length names) (length sns) - Datatypes.S idx)))
        by lia.
      reflexivity.
    + destruct (station_step_past_end idx h ltac:(lia)) as [e He].
      rewrite He. exists (Raised e).
      replace (Nat.min (Datatypes.S k) (Nat.min (length names) (length sns) - idx))
        with 0%nat by lia.
      simpl. rewrite ControllerFacts.add_stations_nil. reflexivity.
Qed.

Lemma build_stations_exact (h : heap) :
  exists r,
    build_stations myDict h
    = (r,
       add_stations
         (map (station_of names sns ir sq ds sp)
              (seq 0 (Nat.min (Z.to_nat n) (Nat.min (length names) (length sns)))))
         h).
Proof.
  destruct (ControllerFacts.snapshot_value_Some _ _ _ _ H_ir) as (stations & Hsec & Hir).
  destruct (ControllerFacts.snapshot_value_Some _ _ _ _ H_sq) as (stations1 & Hsec1 & Hsq).
  destruct (ControllerFacts.snapshot_value_Some _ _ _ _ H_ds) as (stations2 & Hsec2 & Hds).
  destruct (ControllerFacts.snapshot_value_Some _ _ _ _ H_sp) as (stations3 & Hsec3 & Hsp).
  destruct (ControllerFacts.snapshot_value_Some _ _ _ _ H_n) as (status_section & Hsec' & Hn).
  assert (stations1 = stations) as -> by congruence.
  assert (stations2 = stations) as -> by congruence.
  assert (stations3 = stations) as -> by congruence.
  unfold build_stations.
  rewrite bind_lift, (ControllerFacts.lookup_key_Some _ _ _ Hsec).
  rewrite bind_lift, (ControllerFacts.lookup_key_Some _ _ _ Hir), bind_lift.
  cbn [Py.getitem lookup list_lookup].
  rewrite bind_lift, (ControllerFacts.lookup_key_Some _ _ _ Hsq), bind_lift.
  cbn [Py.getitem lookup list_lookup].
  rewrite bind_lift, (ControllerFacts.lookup_key_Some _ _ _ Hds), bind_lift.
  cbn [Py.getitem lookup list_lookup].
  rewrite bind_lift, (ControllerFacts.lookup_key_Some _ _ _ Hsp), bind_lift.
  cbn [Py.getitem lookup list_lookup].
  rewrite bind_lift, (ControllerFacts.lookup_key_Some _ _ _ Hsec').
  rewrite bind_lift, (ControllerFacts.lookup_key_Some _ _ _ Hn).
  unfold while_idx_lt. rewrite I_n.
  destruct (count_up_exact (Z.to_nat n) 0 h) as [r Hr].
  exists r. rewrite Hr. rewrite Nat.sub_0_r. reflexivity.
Qed.

(** The statements under [try] on such a snapshot, when 'settings' has
    'en' and the registry is the resolved table. *)
Lemma build_lists_exact (en : pyval) (h : heap) :
  snapshot_value myDict "settings" "en" = Some en ->
  controller_properties (self h) = map (resolved myDict) property_table ->
  snd (build_lists myDict h)
  = add_stations
      (map (station_of names sns ir sq ds sp)
           (seq 0 (Nat.min (Z.to_nat n) (Nat.min (length names) (length sns)))))
      (assign_enabled (Py.truthy en) h).
Proof.
  intros Hen Hprops.
  rewrite (ConstructorFacts.build_lists_present _ _ _ Hen).
  unfold bind.
  destruct (build_stations_exact (assign_enabled (Py.truthy en) h)) as [r Hr].
  rewrite Hr. destruct r as [[]|e]; [|reflexivity].
  rewrite ControllerFacts.build_programs_raises by exact Hprops.
  reflexivity.
Qed.

End Arrays.

(** Without one of the four flag lists, the statements before the station
    loop raise and nothing is appended. *)
Lemma build_stations_missing_flags (myDict : snapshot) (key : string) (h : heap) :
  In key ["ignore_rain"; "stn_seq"; "stn_dis"; "stn_spe"] ->
  snapshot_value myDict "stations" key = None ->
  exists e, build_stations myDict h = (Raised e, h).
Proof.
  intros Hkey Hnone. unfold snapshot_value in Hnone. unfold build_stations.
  rewrite bind_lift.
  destruct (Py.lookup_key myDict "stations") as [stations|e] eqn:Hsec;
    [|eexists; reflexivity].
  apply ControllerFacts.lookup_key_Returned in Hsec. rewrite Hsec in Hnone.
  rewrite bind_lift.
  destruct (Py.lookup_key stations "ignore_rain") as [v1|e] eqn:H1; [|eexists; reflexivity].
  rewrite bind_lift. destruct (Py.getitem v1 0); [|eexists; reflexivity].
  rewrite bind_lift.
  destruct (Py.lookup_key stations "stn_seq") as [v2|e] eqn:H2; [|eexists; reflexivity].
  rewrite bind_lift. destruct (Py.getitem v2 0); [|eexists; reflexivity].
  rewrite bind_lift.
  destruct (Py.lookup_key stations "stn_dis") as [v3|e] eqn:H3; [|eexists; reflexivity].
  rewrite bind_lift. destruct (Py.getitem v3 0); [|eexists; reflexivity].
  rewrite bind_lift.
  destruct (Py.lookup_key stations "stn_spe") as [v4|e] eqn:H4; [|eexists; reflexivity].
  apply ControllerFacts.lookup_key_Returned in H1, H2, H3, H4.
  simpl in Hkey. destruct Hkey as [<-|[<-|[<-|[<-|[]]]]]; congruence.
Qed.

End StationLoopFacts.

(** C3, amended.  For every snapshot, also one with a key missing, an
    array too short or a malformed program tuple, the constructor raises
    nothing and returns a controller: what goes wrong while the lists are
    built is swallowed.  The controller has its registry resolved, and the
    stations the class list held are still there, in front of the ones this
    call appended.  When [nstations] exceeds the number of names and the
    station data is otherwise there ([settings.en], an [int] or a [bool] at
    the head of each of the four flag lists and for [nstations], a list for
    [sn]), the controller is partially populated: it is enabled as
    [settings.en] says, and the stations appended are exactly those of the
    indices below the lengths of [snames] and [sn], each decoded from the
    snapshot at its index -- the ones built before the first missing name or
    status code, fewer than [nstations]. *)
Theorem assembling_swallows_errors (myDict : snapshot) (c : class_lists) :
  exists ctl c',
    OpenSprinklerController.new myDict c = (Returned ctl, c') /\
    getProperties (controller_properties ctl)
      = map (fun def => (p_name def, p_val (resolved myDict def))) property_table /\
    (exists new_stations,
       OpenSprinklerController.getStations ctl c' = controller_stations c ++ new_stations) /\
    forall (en b_ir b_sq b_ds b_sp v_n : pyval) (ir sq ds sp n : Z)
           (ir_more sq_more ds_more sp_more names sns : list pyval),
      snapshot_value myDict "settings" "en" = Some en ->
      snapshot_value myDict "stations" "ignore_rain" = Some (PList (b_ir :: ir_more)) ->
      snapshot_value myDict "stations" "stn_seq" = Some (PList (b_sq :: sq_more)) ->
      snapshot_value myDict "stations" "stn_dis" = Some (PList (b_ds :: ds_more)) ->
      snapshot_value myDict "stations" "stn_spe" = Some (PList (b_sp :: sp_more)) ->
      snapshot_value myDict "stations" "snames" = Some (PList names) ->
      snapshot_value myDict "status" "sn" = Some (PList sns) ->
      snapshot_value myDict "status" "nstations" = Some v_n ->
      Py.as_int b_ir = Some ir -> Py.as_int b_sq = Some sq ->
      Py.as_int b_ds = Some ds -> Py.as_int b_sp = Some sp ->
      Py.as_int v_n = Some n ->
      (Z.of_nat (length names) < n)%Z ->
      OpenSprinklerController.isEnabled ctl = Py.truthy en /\
      OpenSprinklerController.getStations ctl c'
        = controller_stations c
            ++ map (station_of names sns ir sq ds sp)
                 (seq 0 (Nat.min (length names) (length sns))) /\
      (Z.of_nat (Nat.min (length names) (length sns)) < n)%Z.
Proof.
  set (h0 := mkHeap (mkController (map (resolved myDict) property_table) false) c).
  exists (self (snd (OpenSprinklerController.build_lists myDict h0))),
         (cls (snd (OpenSprinklerController.build_lists myDict h0))).
  split; [apply ConstructorFacts.new_unfold|]. split.
  - pose proof (build_lists_same_properties myDict h0) as Hprops.
    unfold same_properties in Hprops. rewrite Hprops. cbn [h0 self controller_properties].
    unfold getProperties. rewrite map_map.
    apply map_ext. intros def. rewrite resolved_name. reflexivity.
  - split.
    + destruct (ControllerFacts.build_lists_appends myDict h0 eq_refl)
        as (h1 & new_stations & Hrun & Hcls & _).
      exists new_stations. rewrite Hrun.
      unfold OpenSprinklerController.getStations. cbn [add_stations cls controller_stations].
      rewrite Hcls. reflexivity.
    + intros en b_ir b_sq b_ds b_sp v_n ir sq ds sp n ir_more sq_more ds_more sp_more
        names sns Hen Hir Hsq Hds Hsp Hnames Hsns Hn Iir Isq Ids Isp In_ Hshort.
      rewrite (StationLoopFacts.build_lists_exact myDict b_ir b_sq b_ds b_sp v_n
                 ir sq ds sp n ir_more sq_more ds_more sp_more names sns
                 Hir Hsq Hds Hsp Hnames Hsns Hn Iir Isq Ids Isp In_ en h0 Hen eq_refl).
      replace (Nat.min (Z.to_nat n) (Nat.min (length names) (length sns)))
        with (Nat.min (length names) (length sns)) by lia.
      split; [reflexivity|]. split; [reflexivity | lia].
Qed.

Lemma assembling_swallows_errors_witness :
  exists ctl c',
    OpenSprinklerController.new short_snapshot OpenSprinklerController.class_attributes
      = (Returned ctl, c') /\
    OpenSprinklerController.isEnabled ctl = Py.truthy (PInt 1) /\
    OpenSprinklerController.getStations ctl c'
      = controller_stations OpenSprinklerController.class_attributes
          ++ map (station_of [PStr "Lawn"; PStr "Beds"] [PInt 0; PInt 1; PInt 0] 5 7 2 0)
               (seq 0 (Nat.min (length [PStr "Lawn"; PStr "Beds"])
                               (length [PInt 0; PInt 1; PInt 0]))) /\
    (Z.of_nat (Nat.min (length [PStr "Lawn"; PStr "Beds"])
                       (length [PInt 0; PInt 1; PInt 0])) < 3)%Z.
Proof.
  destruct (assembling_swallows_errors short_snapshot OpenSprinklerController.class_attributes)
    as (ctl & c' & Hnew & _ & _ & Hshort).
  exists ctl, c'. split; [exact Hnew|].
  apply (Hshort (PInt 1) (PInt 5) (PInt 7) (PInt 2) (PInt 0) (PInt 3) 5%Z 7%Z 2%Z 0%Z 3%Z
           [] [] [] [] [PStr "Lawn"; PStr "Beds"] [PInt 0; PInt 1; PInt 0]);
    first [vm_compute; reflexivity | reflexivity | simpl; lia].
Defined.

(** X7. The number of stations one construction appends, exactly: with
    [settings.en] present, an [int] or a [bool] at the head of each of the
    four flag lists and for [nstations], and lists for [snames] and [sn],
    the stations appended are those of the indices [0 .. m-1], in order,
    where [m] is the least of [nstations], the length of [snames] and the
    length of [sn]; the loop stops at the first index one of the two arrays
    does not have. *)
Theorem stations_appended_exactly
    (myDict : snapshot) (c : class_lists) (en b_ir b_sq b_ds b_sp v_n : pyval)
    (ir sq ds sp n : Z) (ir_more sq_more ds_more sp_more names sns : list pyval) :
  snapshot_value myDict "settings" "en" = Some en ->
  snapshot_value myDict "stations" "ignore_rain" = Some (PList (b_ir :: ir_more)) ->
  snapshot_value myDict "stations" "stn_seq" = Some (PList (b_sq :: sq_more)) ->
  snapshot_value myDict "stations" "stn_dis" = Some (PList (b_ds :: ds_more)) ->
  snapshot_value myDict "stations" "stn_spe" = Some (PList (b_sp :: sp_more)) ->
  snapshot_value myDict "stations" "snames" = Some (PList names) ->
  snapshot_value myDict "status" "sn" = Some (PList sns) ->
  snapshot_value myDict "status" "nstations" = Some v_n ->
  Py.as_int b_ir = Some ir -> Py.as_int b_sq = Some sq ->
  Py.as_int b_ds = Some ds -> Py.as_int b_sp = Some sp ->
  Py.as_int v_n = Some n ->
  exists ctl,
    OpenSprinklerController.new myDict c =
      (Returned ctl,
       mkClassLists
         (controller_stations c
            ++ map (station_of names sns ir sq ds sp)
                 (seq 0 (Nat.min (Z.to_nat n) (Nat.min (length names) (length sns)))))
         (controller_programs c)).
Proof.
  intros Hen Hir Hsq Hds Hsp Hnames Hsns Hn Iir Isq Ids Isp In_.
  rewrite ConstructorFacts.new_unfold.
  rewrite (StationLoopFacts.build_lists_exact myDict b_ir b_sq b_ds b_sp v_n ir sq ds sp n
             ir_more sq_more ds_more sp_more names sns
             Hir Hsq Hds Hsp Hnames Hsns Hn Iir Isq Ids Isp In_ en
             (mkHeap (mkController (map (resolved myDict) property_table) false) c)
             Hen eq_refl).
  eexists. reflexivity.
Qed.

Lemma stations_appended_exactly_witness :
  snapshot_value bool_flag_snapshot "settings" "en" = Some (PInt 1) /\
  snapshot_value bool_flag_snapshot "stations" "ignore_rain"
    = Some (PList (PBool true :: [])) /\
  snapshot_value bool_flag_snapshot "stations" "stn_seq" = Some (PList (PInt 7 :: [])) /\
  snapshot_value bool_flag_snapshot "stations" "stn_dis" = Some (PList (PInt 2 :: [])) /\
  snapshot_value bool_flag_snapshot "stations" "stn_spe" = Some (PList (PInt 0 :: [])) /\
  snapshot_value bool_flag_snapshot "stations" "snames"
    = Some (PList [PStr "Lawn"; PStr "Beds"]) /\
  snapshot_value bool_flag_snapshot "status" "sn"
    = Some (PList [PInt 0; PInt 1; PInt 0]) /\
  snapshot_value bool_flag_snapshot "status" "nstations" = Some (PInt 3) /\
  Py.as_int (PBool true) = Some 1%Z /\ Py.as_int (PInt 7) = Some 7%Z /\
  Py.as_int (PInt 2) = Some 2%Z /\ Py.as_int (PInt 0) = Some 0%Z /\
  Py.as_int (PInt 3) = Some 3%Z /\
  exists ctl,
    OpenSprinklerController.new bool_flag_snapshot OpenSprinklerController.class_attributes =
      (Returned ctl,
       mkClassLists
         (controller_stations OpenSprinklerController.class_attributes
            ++ map (station_of [PStr "Lawn"; PStr "Beds"] [PInt 0; PInt 1; PInt 0] 1 7 2 0)
                 (seq 0 (Nat.min (Z.to_nat 3)
                           (Nat.min (length [PStr "Lawn"; PStr "Beds"])
                                    (length [PInt 0; PInt 1; PInt 0])))))
         (controller_programs OpenSprinklerController.class_attributes)).
Proof.
  do 8 (split; [vm_compute; reflexivity|]).
  do 5 (split; [reflexivity|]).
  apply (stations_appended_exactly bool_flag_snapshot OpenSprinklerController.class_attributes
           (PInt 1) (PBool true) (PInt 7) (PInt 2) (PInt 0) (PInt 3) 1 7 2 0 3
           [] [] [] [] [PStr "Lawn"; PStr "Beds"] [PInt 0; PInt 1; PInt 0]);
    vm_compute; reflexivity.
Defined.

(** X8. When the 'stations' section lacks one of the four flag lists
    ('ignore_rain', 'stn_seq', 'stn_dis', 'stn_spe'), the constructor
    appends no station at all, however many names and status codes the
    snapshot has: the class lists come back as they were. *)
Theorem missing_flag_list_builds_no_station
    (myDict : snapshot) (c : class_lists) (key : string) :
  In key ["ignore_rain"; "stn_seq"; "stn_dis"; "stn_spe"] ->
  snapshot_value myDict "stations" key = None ->
  exists ctl, OpenSprinklerController.new myDict c = (Returned ctl, c).
Proof.
  intros Hkey Hnone. rewrite ConstructorFacts.new_unfold.
  destruct (snapshot_value myDict "settings" "en") as [en|] eqn:Hen.
  - rewrite (ConstructorFacts.build_lists_present _ _ _ Hen).
    set (h1 := OpenSprinklerController.assign_enabled _ _).
    unfold bind.
    destruct (StationLoopFacts.build_stations_missing_flags myDict key h1 Hkey Hnone)
      as [e He].
    rewrite He. eexists. reflexivity.
  - rewrite (ConstructorFacts.build_lists_absent _ _ Hen). eexists. reflexivity.
Qed.

Lemma missing_flag_list_builds_no_station_witness :
  In "stn_spe" ["ignore_rain"; "stn_seq"; "stn_dis"; "stn_spe"] /\
  snapshot_value unflagged_snapshot "stations" "stn_spe" = None /\
  snapshot_value unflagged_snapshot "status" "nstations" = Some (PInt 3) /\
  exists ctl,
    OpenSprinklerController.new unflagged_snapshot OpenSprinklerController.class_attributes
    = (Returned ctl, OpenSprinklerController.class_attributes).
Proof.
  split; [simpl; tauto|]. split; [vm_compute; reflexivity|].
  split; [vm_compute; reflexivity|].
  apply (missing_flag_list_builds_no_station unflagged_snapshot
           OpenSprinklerController.class_attributes "stn_spe").
  - simpl; tauto.
  - vm_compute. reflexivity.
Defined.

(** X9. On every controller the constructor returns, the getters that go
    through [getProperty] for an entry other than the first raise:
    [getNumStations], [getNumPrograms], [getHardwareVersion] and
    [getHardwareType] never return a value. *)
Theorem controller_getters_raise (myDict : snapshot) (c : class_lists) :
  exists ctl c',
    OpenSprinklerController.new myDict c = (Returned ctl, c') /\
    OpenSprinklerController.getNumStations ctl = Raised (NameError "UnknownPropertyError") /\
    OpenSprinklerController.getNumPrograms ctl = Raised (NameError "UnknownPropertyError") /\
    OpenSprinklerController.getHardwareVersion ctl
      = Raised (NameError "UnknownPropertyError") /\
    OpenSprinklerController.getHardwareType ctl = Raised (NameError "UnknownPropertyError").
Proof.
  destruct (new_returns myDict c) as (ctl & c' & Hnew & Hprops).
  exists ctl, c'. split; [exact Hnew|].
  unfold OpenSprinklerController.getNumStations, OpenSprinklerController.getNumPrograms,
    OpenSprinklerController.getHardwareVersion, OpenSprinklerController.getHardwareType,
    OpenSprinklerController.getProperty.
  rewrite Hprops. unfold property_table. cbn [map].
  rewrite !getProperty_not_first by (rewrite resolved_name; reflexivity).
  repeat split.
Qed.

(** ** Programs, further *)

Module StartTimeFacts.
Import OpenSprinklerProgram.

(** One round of the loop on an [int] or a [bool]. *)
Lemma repeating_step_number (v : pyval) (z : Z) (s : Program) :
  Py.as_int v = Some z ->
  repeating_step v s =
  (Returned tt,
   if (0 <? z)%Z
   then assign_repeating_start_times
          (program_repeating_start_times s ++ [decode_repeating z]) s
   else s).
Proof.
  intros Hz.
  pose proof (mask_truthy z 13 ltac:(lia)) as B13.
  pose proof (mask_truthy z 12 ltac:(lia)) as B12.
  pose proof (mask_truthy z 11 ltac:(lia)) as B11.
  change (2 ^ 13)%Z with 8192%Z in B13. change (2 ^ 12)%Z with 4096%Z in B12.
  change (2 ^ 11)%Z with 2048%Z in B11.
  cbv beta iota delta [repeating_step try_except modify bind lift ret Py.and_ Py.gt0].
  rewrite Hz. cbv beta iota. rewrite B13, B12, B11. unfold decode_repeating.
  destruct (0 <? z)%Z; [|reflexivity].
  destruct (Z.testbit z 13), (Z.testbit z 12), (Z.testbit z 11); reflexivity.
Qed.

(** One round of the loop on anything else: the comparison raises. *)
Lemma repeating_step_not_number (v : pyval) (s : Program) :
  Py.as_int v = None -> repeating_step v s = (Raised TypeError, s).
Proof.
  intros Hz. unfold repeating_step, Py.gt0. rewrite bind_lift, Hz. reflexivity.
Qed.

(** The loop decodes the integers at the head of the list and stops at
    the first entry that is neither an [int] nor a [bool]. *)
Lemma for_each_numeric_prefix (items : list pyval) (s : Program) :
  for_each items repeating_step s =
  (if all_numeric items then Returned tt else Raised TypeError,
   assign_repeating_start_times
     (program_repeating_start_times s
        ++ map decode_repeating (List.filter (fun t => (0 <? t)%Z) (numeric_prefix items)))
     s).
Proof.
  revert s. induction items as [|v items IH]; intros s.
  - simpl. rewrite app_nil_r. destruct s; reflexivity.
  - cbn [for_each numeric_prefix all_numeric forallb]. unfold bind.
    destruct (Py.as_int v) as [z|] eqn:Hz.
    + rewrite (repeating_step_number _ _ _ Hz), IH.
      fold (all_numeric items). cbn [andb List.filter].
      destruct (0 <? z)%Z.
      * cbn [map]. simpl program_repeating_start_times.
        rewrite ProgramFacts.assign_repeating_twice, <- app_assoc. reflexivity.
      * reflexivity.
    + rewrite (repeating_step_not_number _ _ Hz). simpl. rewrite app_nil_r.
      destruct s; reflexivity.
Qed.

Lemma setStartTimes_list (psttype : string) (items : list pyval) (s : Program) :
  String.eqb psttype "Fixed" = false ->
  setStartTimes psttype (PList items) s =
  (if all_numeric items then Returned tt else Raised TypeError,
   assign_repeating_start_times
     (map decode_repeating (List.filter (fun t => (0 <? t)%Z) (numeric_prefix items)))
     (assign_fixed_start_times [] s)).
Proof.
  intros H. unfold setStartTimes, setRepeatingStartTimes. rewrite H.
  rewrite !bind_modify, bind_lift. simpl Py.iter. cbv iota.
  rewrite for_each_numeric_prefix. reflexivity.
Qed.

(** The last statements of [__init__] for a program with repeating start
    times, an integer [days0] and a list of raw start times. *)
Lemma init_fields_list
    (d0 : Z) (d1 : pyval) (items : list pyval) (durs : pyval) (s : Program) :
  program_start_time_type s = "Repeating" ->
  exists schedule,
    snd (init_fields (PInt d0) d1 (PList items) durs s) =
    let decoded :=
      assign_repeating_start_times
        (map decode_repeating (List.filter (fun t => (0 <? t)%Z) (numeric_prefix items)))
        (assign_fixed_start_times [] (assign_schedule schedule s)) in
    if all_numeric items then assign_zone_durations durs decoded else decoded.
Proof.
  intros Htype. unfold init_fields, getScheduleType, getStartTimeType.
  rewrite bind_gets.
  destruct (ProgramFacts.setSchedule_returns (program_schedule_type s) d0 d1 s)
    as [schedule Hs].
  exists schedule. unfold bind at 1. rewrite Hs, bind_gets.
  simpl program_start_time_type. rewrite Htype.
  unfold bind at 1. rewrite setStartTimes_list by reflexivity.
  destruct (all_numeric items); reflexivity.
Qed.

(** Every decoded start time is in range. *)
Lemma decode_repeating_in_range (z : Z) : start_time_in_range (decode_repeating z).
Proof.
  unfold start_time_in_range, decode_repeating. cbn [basis sign offset].
  split; [|split].
  - destruct (Z.testbit z 13); [tauto|]. destruct (Z.testbit z 12); tauto.
  - destruct (Z.testbit z 11); tauto.
  - change 2047%Z with (Z.ones 11). rewrite Z.land_ones by lia.
    pose proof (Z.mod_pos_bound z (2 ^ 11) eq_refl) as Hb.
    change (2 ^ 11)%Z with 2048%Z in *. change (Z.ones 11) with 2047%Z. lia.
Qed.

Lemma start_times_in_range_refl s : start_times_in_range s s.
Proof. intros H. exact H. Qed.

Lemma start_times_in_range_trans s1 s2 s3 :
  start_times_in_range s1 s2 -> start_times_in_range s2 s3 -> start_times_in_range s1 s3.
Proof. unfold start_times_in_range. auto. Qed.

Lemma no_fixed_start_time_refl s : no_fixed_start_time s s.
Proof. intros H. exact H. Qed.

Lemma no_fixed_start_time_trans s1 s2 s3 :
  no_fixed_start_time s1 s2 -> no_fixed_start_time s2 s3 -> no_fixed_start_time s1 s3.
Proof. unfold no_fixed_start_time. auto. Qed.

(** [setRepeatingStartTimes] on any argument leaves start times in range. *)
Lemma setRepeatingStartTimes_in_range (sTimes : pyval) :
  keeps start_times_in_range (setRepeatingStartTimes sTimes).
Proof.
  intros s _. unfold setRepeatingStartTimes.
  rewrite !bind_modify, bind_lift.
  destruct (Py.iter sTimes) as [items|e].
  - rewrite for_each_numeric_prefix. simpl.
    apply List.Forall_forall. intros st Hin.
    apply in_map_iff in Hin as (z & <- & _). apply decode_repeating_in_range.
  - simpl. constructor.
Qed.

(** [__init__] on any arguments keeps start times in range. *)
Lemma init_in_range (pname flags days0 days1 sTimes durs : pyval) :
  keeps start_times_in_range (init pname flags days0 days1 sTimes durs).
Proof.
  unfold init, init_flags, init_fields, getScheduleType, getStartTimeType, setSchedule,
    setStartTimes, setWeekdaySchedule, setIntervalSchedule, setFixedStartTimes,
    setName, setEnabled, setWxAdjustment, setRestrictions, setScheduleType,
    setStartTimeType, setDurations, setter.
  repeat first
    [ apply setRepeatingStartTimes_in_range
    | apply (keeps_ret _ start_times_in_range_refl)
    | apply (keeps_raise _ start_times_in_range_refl)
    | apply (keeps_lift _ start_times_in_range_refl)
    | apply (keeps_gets _ start_times_in_range_refl)
    | apply (keeps_bind _ start_times_in_range_trans); [| intros ?]
    | apply (keeps_try_except _ start_times_in_range_trans); [| intros ?]
    | apply keeps_if
    | apply keeps_modify; intros ? ];
    intros H; first [exact H | constructor].
Qed.

(** [__init__] on any arguments never stores a fixed start time. *)
Lemma init_no_fixed (pname flags days0 days1 sTimes durs : pyval) :
  keeps no_fixed_start_time (init pname flags days0 days1 sTimes durs).
Proof.
  unfold init, init_flags, init_fields, getScheduleType, getStartTimeType, setSchedule,
    setStartTimes, setWeekdaySchedule, setIntervalSchedule, setFixedStartTimes,
    setRepeatingStartTimes, repeating_step,
    setName, setEnabled, setWxAdjustment, setRestrictions, setScheduleType,
    setStartTimeType, setDurations, setter.
  repeat first
    [ apply (keeps_ret _ no_fixed_start_time_refl)
    | apply (keeps_raise _ no_fixed_start_time_refl)
    | apply (keeps_lift _ no_fixed_start_time_refl)
    | apply (keeps_gets _ no_fixed_start_time_refl)
    | apply (keeps_bind _ no_fixed_start_time_trans); [| intros ?]
    | apply (keeps_try_except _ no_fixed_start_time_trans); [| intros ?]
    | apply (keeps_for_each _ no_fixed_start_time_refl no_fixed_start_time_trans); intros ?
    | apply keeps_if
    | apply keeps_modify; intros ? ];
    intros H; first [exact H | reflexivity].
Qed.

(** The constructor returns the object [__init__] leaves. *)
Lemma new_is_init (pname flags days0 days1 sTimes durs : pyval) :
  new pname flags days0 days1 sTimes durs
  = Returned (snd (init pname flags days0 days1 sTimes durs class_attributes)).
Proof.
  unfold new, init. rewrite try_except_swallows. reflexivity.
Qed.

End StartTimeFacts.

(** X10. A weekday schedule: with an integer [flags] whose bits 4 and 5 are
    clear and an integer [days0], the schedule has seven entries, Monday
    first, and the entry of day [i] is scheduled exactly when bit [i] of
    [days0] is set; [days1] and the bits of [days0] from 7 on play no part. *)
Theorem weekday_schedule_decoding
    (pname : pyval) (flags days0 : Z) (days1 sTimes durs : pyval) :
  Z.testbit flags 4 || Z.testbit flags 5 = false ->
  exists p,
    OpenSprinklerProgram.new pname (PInt flags) (PInt days0) days1 sTimes durs
      = Returned p /\
    program_schedule_type p = "Weekday" /\
    program_schedule p = weekday_schedule_of days0.
Proof.
  intros Hbits.
  destruct (ProgramFacts.init_int_flags pname flags (PInt days0) days1 sTimes durs
              OpenSprinklerProgram.class_attributes) as (p & Hinit & Hp & Hsame).
  exists p. unfold OpenSprinklerProgram.new. rewrite Hinit. split; [reflexivity|]. split.
  - destruct Hsame as (_ & _ & _ & _ & Ht & _). rewrite Ht. simpl.
    unfold schedule_type_of. rewrite Hbits. reflexivity.
  - subst p. unfold OpenSprinklerProgram.init_fields, OpenSprinklerProgram.getScheduleType.
    rewrite bind_gets. simpl program_schedule_type.
    unfold schedule_type_of. rewrite Hbits.
    unfold bind at 1. rewrite ProgramFacts.setSchedule_weekday.
    apply (ProgramFacts.after_schedule_same_schedule sTimes durs).
Qed.

Lemma weekday_schedule_decoding_witness :
  Z.testbit 1 4 || Z.testbit 1 5 = false /\
  exists p,
    OpenSprinklerProgram.new (PStr "Lawn") (PInt 1) (PInt 65) (PInt 0)
      (PList [PInt 360]) (PList [PInt 600]) = Returned p /\
    program_schedule_type p = "Weekday" /\
    program_schedule p = weekday_schedule_of 65.
Proof.
  split; [reflexivity|].
  apply (weekday_schedule_decoding (PStr "Lawn") 1 65 (PInt 0)
           (PList [PInt 360]) (PList [PInt 600])).
  reflexivity.
Defined.

(** X11. Durations are stored as given: for a program with an integer
    [flags] whose bit 6 is clear (repeating start times), an integer
    [days0] and a list of raw start times in which every entry is an [int]
    or a [bool], [getDurations] returns the [durs] passed to the
    constructor, whatever value that is, and the name is the [pname]
    passed; nothing compares the durations with the stations. *)
Theorem durations_stored_verbatim
    (pname : pyval) (flags days0 : Z) (days1 : pyval) (items : list pyval) (durs : pyval) :
  Z.testbit flags 6 = false ->
  all_numeric items = true ->
  exists p,
    OpenSprinklerProgram.new pname (PInt flags) (PInt days0) days1 (PList items) durs
      = Returned p /\
    program_zone_durations p = durs /\
    program_name p = pname.
Proof.
  intros Hbit Hnum.
  destruct (ProgramFacts.init_int_flags pname flags (PInt days0) days1 (PList items) durs
              OpenSprinklerProgram.class_attributes) as (p & Hinit & Hp & _).
  exists p. unfold OpenSprinklerProgram.new. rewrite Hinit. split; [reflexivity|].
  destruct (StartTimeFacts.init_fields_list days0 days1 items durs
              (with_flags pname flags OpenSprinklerProgram.class_attributes))
    as [schedule Hf].
  { simpl. unfold start_time_type_of. rewrite Hbit. reflexivity. }
  rewrite Hf in Hp. cbv zeta in Hp. rewrite Hnum in Hp. subst p. split; reflexivity.
Qed.

Lemma durations_stored_verbatim_witness :
  Z.testbit 1 6 = false /\
  all_numeric [PInt 360; PBool true; PInt 0] = true /\
  exists p,
    OpenSprinklerProgram.new (PStr "Lawn") (PInt 1) (PInt 65) (PInt 0)
      (PList [PInt 360; PBool true; PInt 0]) (PStr "not a list") = Returned p /\
    program_zone_durations p = PStr "not a list" /\
    program_name p = PStr "Lawn".
Proof.
  split; [reflexivity|]. split; [reflexivity|].
  apply (durations_stored_verbatim (PStr "Lawn") 1 65 (PInt 0)
           [PInt 360; PBool true; PInt 0] (PStr "not a list")); reflexivity.
Defined.

(** X12. For a program with an integer [flags] whose bit 6 is clear, an
    integer [days0] and a list of raw start times, none of them
    floating-point, in which some entry is neither an [int] nor a [bool] (a
    text, a list, an object, [null]): the first such entry stops the
    decoding.  The program keeps exactly the start times decoded from the
    positive integers before that entry ([bool]s counting as 0 and 1), the
    durations are never stored ([getDurations] returns the empty list of the
    class), and the constructor still returns the program. *)
Theorem bad_start_time_loses_durations
    (pname : pyval) (flags days0 : Z) (days1 : pyval) (items : list pyval) (durs : pyval) :
  Z.testbit flags 6 = false ->
  all_numeric items = false ->
  exists p,
    OpenSprinklerProgram.new pname (PInt flags) (PInt days0) days1 (PList items) durs
      = Returned p /\
    program_repeating_start_times p
      = map decode_repeating (List.filter (fun t => (0 <? t)%Z) (numeric_prefix items)) /\
    program_zone_durations p = PList [].
Proof.
  intros Hbit Hnum.
  destruct (ProgramFacts.init_int_flags pname flags (PInt days0) days1 (PList items) durs
              OpenSprinklerProgram.class_attributes) as (p & Hinit & Hp & _).
  exists p. unfold OpenSprinklerProgram.new. rewrite Hinit. split; [reflexivity|].
  destruct (StartTimeFacts.init_fields_list days0 days1 items durs
              (with_flags pname flags OpenSprinklerProgram.class_attributes))
    as [schedule Hf].
  { simpl. unfold start_time_type_of. rewrite Hbit. reflexivity. }
  rewrite Hf in Hp. cbv zeta in Hp. rewrite Hnum in Hp. subst p. split; reflexivity.
Qed.

Lemma bad_start_time_loses_durations_witness :
  Z.testbit 1 6 = false /\
  all_numeric [PInt 360; PStr "07:00"; PInt 420] = false /\
  exists p,
    OpenSprinklerProgram.new (PStr "Lawn") (PInt 1) (PInt 65) (PInt 0)
      (PList [PInt 360; PStr "07:00"; PInt 420]) (PList [PInt 600]) = Returned p /\
    program_repeating_start_times p
      = map decode_repeating
          (List.filter (fun t => (0 <? t)%Z)
             (numeric_prefix [PInt 360; PStr "07:00"; PInt 420])) /\
    program_zone_durations p = PList [].
Proof.
  split; [reflexivity|]. split; [reflexivity|].
  apply (bad_start_time_loses_durations (PStr "Lawn") 1 65 (PInt 0)
           [PInt 360; PStr "07:00"; PInt 420] (PList [PInt 600])); reflexivity.
Defined.

(** X13. A [flags] that is not a number: the constructor raises nothing and
    returns a program in which only the name is set; enabled, weather
    adjustment, restriction, both types, schedule, start times and durations
    are the values of the class body. *)
Theorem non_numeric_flags_sets_name_only
    (pname flags days0 days1 sTimes durs : pyval) :
  Py.as_int flags = None ->
  OpenSprinklerProgram.new pname flags days0 days1 sTimes durs
  = Returned (OpenSprinklerProgram.assign_name pname OpenSprinklerProgram.class_attributes).
Proof.
  intros Hflags. rewrite StartTimeFacts.new_is_init. f_equal.
  unfold OpenSprinklerProgram.init. rewrite try_except_swallows. cbn [snd].
  unfold OpenSprinklerProgram.init_flags, Py.and_.
  rewrite bind_assoc. unfold bind at 1. cbn. rewrite Hflags. reflexivity.
Qed.

Lemma non_numeric_flags_sets_name_only_witness :
  Py.as_int (PStr "1") = None /\
  OpenSprinklerProgram.new (PStr "Lawn") (PStr "1") (PInt 65) (PInt 0)
    (PList [PInt 360]) (PList [PInt 600])
  = Returned (OpenSprinklerProgram.assign_name (PStr "Lawn")
                OpenSprinklerProgram.class_attributes).
Proof.
  split; [reflexivity|].
  apply (non_numeric_flags_sets_name_only (PStr "Lawn") (PStr "1") (PInt 65) (PInt 0)
           (PList [PInt 360]) (PList [PInt 600])).
  reflexivity.
Defined.

(** X14. No program ever holds a fixed start time: whatever the six
    arguments, the constructor returns a program whose list of fixed start
    times is empty, so [getStartTimes] returns the repeating list. *)
Theorem no_program_has_fixed_start_times
    (pname flags days0 days1 sTimes durs : pyval) :
  exists p,
    OpenSprinklerProgram.new pname flags days0 days1 sTimes durs = Returned p /\
    program_fixed_start_times p = [] /\
    OpenSprinklerProgram.getStartTimes p = inr (program_repeating_start_times p).
Proof.
  rewrite StartTimeFacts.new_is_init. eexists. split; [reflexivity|].
  pose proof (StartTimeFacts.init_no_fixed pname flags days0 days1 sTimes durs
                OpenSprinklerProgram.class_attributes eq_refl) as Hfixed.
  split; [exact Hfixed|].
  unfold OpenSprinklerProgram.getStartTimes. rewrite Hfixed. reflexivity.
Qed.

(** X15. Every start time a program holds is in range: whatever the six
    arguments of the constructor, each entry of the repeating list has basis
    'Sunset', 'Sunrise' or 'Midnight', sign 'plus' or 'minus', and an offset
    between 0 and 2047. *)
Theorem start_times_always_in_range
    (pname flags days0 days1 sTimes durs : pyval) :
  exists p,
    OpenSprinklerProgram.new pname flags days0 days1 sTimes durs = Returned p /\
    forall st : start_time,
      In st (program_repeating_start_times p) ->
      (basis st = "Sunset" \/ basis st = "Sunrise" \/ basis st = "Midnight") /\
      (sign st = "plus" \/ sign st = "minus") /\
      (0 <= offset st <= 2047)%Z.
Proof.
  rewrite StartTimeFacts.new_is_init. eexists. split; [reflexivity|].
  apply List.Forall_forall.
  apply (StartTimeFacts.init_in_range pname flags days0 days1 sTimes durs
           OpenSprinklerProgram.class_attributes).
  constructor.
Qed.

(** X16. A weekday program whose [days0] is not a number: the fields
    decoded from [flags] are set, and nothing else is; the schedule, the
    start times and the durations stay those of the class body. *)
Theorem non_numeric_days0_stops_after_flags
    (pname : pyval) (flags : Z) (days0 days1 sTimes durs : pyval) :
  Z.testbit flags 4 || Z.testbit flags 5 = false ->
  Py.as_int days0 = None ->
  OpenSprinklerProgram.new pname (PInt flags) days0 days1 sTimes durs
  = Returned (with_flags pname flags OpenSprinklerProgram.class_attributes).
Proof.
  intros Hbits Hd0.
  destruct (ProgramFacts.init_int_flags pname flags days0 days1 sTimes durs
              OpenSprinklerProgram.class_attributes) as (p & Hinit & Hp & _).
  unfold OpenSprinklerProgram.new. rewrite Hinit. f_equal. subst p.
  unfold OpenSprinklerProgram.init_fields, OpenSprinklerProgram.getScheduleType.
  rewrite bind_gets. simpl program_schedule_type.
  unfold schedule_type_of. rewrite Hbits.
  unfold bind at 1, OpenSprinklerProgram.setSchedule.
  rewrite String.eqb_refl. unfold OpenSprinklerProgram.setWeekdaySchedule.
  rewrite bind_lift. cbn [OpenSprinklerProgram.weekday_entries Py.enumerate
                            OpenSprinklerProgram.week length seq combine].
  unfold Py.and_. rewrite Hd0. reflexivity.
Qed.

Lemma non_numeric_days0_stops_after_flags_witness :
  Z.testbit 3 4 || Z.testbit 3 5 = false /\
  Py.as_int PNone = None /\
  OpenSprinklerProgram.new (PStr "Lawn") (PInt 3) PNone (PInt 0)
    (PList [PInt 360]) (PList [PInt 600])
  = Returned (with_flags (PStr "Lawn") 3 OpenSprinklerProgram.class_attributes).
Proof.
  split; [reflexivity|]. split; [reflexivity|].
  apply (non_numeric_days0_stops_after_flags (PStr "Lawn") 3 PNone (PInt 0)
           (PList [PInt 360]) (PList [PInt 600])); reflexivity.
Defined.

(** ** The registry over snapshots and sequences of writes *)

Module RegistryInvariants.

Lemma setProperty_names (ctl : Controller) (name : string) (v : pyval) :
  map p_name (controller_properties (snd (OpenSprinklerController.setProperty ctl name v)))
  = map p_name (controller_properties ctl).
Proof.
  unfold OpenSprinklerController.setProperty.
  rewrite RegistryFacts.setProperty_map. cbn [snd controller_properties].
  rewrite map_map. apply map_ext. intros prop.
  destruct (String.eqb (p_name prop) name); reflexivity.
Qed.

Lemma apply_writes_names (writes : list (string * pyval)) (ctl : Controller) :
  map p_name (controller_properties (apply_writes ctl writes))
  = map p_name (controller_properties ctl).
Proof.
  unfold apply_writes. revert ctl.
  induction writes as [|w writes IH]; intros ctl; simpl; [reflexivity|].
  rewrite IH. apply setProperty_names.
Qed.

Lemma resolved_names (myDict : snapshot) (props : list property) :
  map p_name (map (resolved myDict) props) = map p_name props.
Proof.
  rewrite map_map. apply map_ext. intros def. apply resolved_name.
Qed.

Lemma listing_names (props : list property) :
  map fst (getProperties props) = map p_name props.
Proof. unfold getProperties. rewrite map_map. reflexivity. Qed.

Lemma table_names_distinct : List.NoDup (map p_name property_table).
Proof.
  apply NoDup_ListNoDup.
  apply (bool_decide_unpack (NoDup (map p_name property_table))).
  vm_compute. exact I.
Qed.

(** An [nstations] that is neither an [int] nor a [bool]: the comparison
    of the loop raises before any round. *)
Lemma build_stations_bad_bound (myDict : snapshot) (v : pyval) (h : heap) :
  snapshot_value myDict "status" "nstations" = Some v ->
  Py.as_int v = None ->
  exists e, OpenSprinklerController.build_stations myDict h = (Raised e, h).
Proof.
  intros Hn Hv. unfold snapshot_value in Hn.
  unfold OpenSprinklerController.build_stations.
  repeat (rewrite bind_lift;
          match goal with
          | |- context [match Py.getitem ?a ?b with Returned _ => _ | Raised _ => _ end] =>
              destruct (Py.getitem a b); [|eexists; reflexivity]
          | |- context [match Py.lookup_key ?a "status" with
                        | Returned _ => _ | Raised _ => _ end] => fail 1
          | |- context [match Py.lookup_key ?a ?b with Returned _ => _ | Raised _ => _ end] =>
              destruct (Py.lookup_key a b); [|eexists; reflexivity]
          end).
  rewrite bind_lift.
  destruct (Py.lookup_key myDict "status") as [sec|e] eqn:Hsec; [|eexists; reflexivity].
  apply ControllerFacts.lookup_key_Returned in Hsec. rewrite Hsec in Hn.
  rewrite bind_lift, (ControllerFacts.lookup_key_Some _ _ _ Hn).
  unfold while_idx_lt. rewrite Hv. eexists. reflexivity.
Qed.

End RegistryInvariants.

(** X17. The registry reads the declared keys and nothing else: two
    snapshots that agree on [snapshot[section][key]] for every entry of the
    table give controllers with the same registry, whatever else the
    snapshots hold and whatever the class lists are. *)
Theorem registry_reads_declared_keys_only
    (d1 d2 : snapshot) (c1 c2 : class_lists) :
  (forall (def : property) (key : string),
     In def property_table -> p_abbrev def = Some key ->
     snapshot_value d1 (p_source def) key = snapshot_value d2 (p_source def) key) ->
  exists ctl1 c1' ctl2 c2',
    OpenSprinklerController.new d1 c1 = (Returned ctl1, c1') /\
    OpenSprinklerController.new d2 c2 = (Returned ctl2, c2') /\
    controller_properties ctl1 = controller_properties ctl2.
Proof.
  intros Hagree.
  destruct (new_returns d1 c1) as (ctl1 & c1' & Hnew1 & Hp1).
  destruct (new_returns d2 c2) as (ctl2 & c2' & Hnew2 & Hp2).
  exists ctl1, c1', ctl2, c2'. split; [exact Hnew1|]. split; [exact Hnew2|].
  rewrite Hp1, Hp2. apply map_ext_in. intros def Hin.
  unfold resolved. destruct (String.eqb (p_source def) "derived"); [reflexivity|].
  destruct (p_abbrev def) as [key|] eqn:Hkey; [|reflexivity].
  rewrite (Hagree def key Hin Hkey). reflexivity.
Qed.

Lemma registry_reads_declared_keys_only_witness :
  snapshot_value extended_snapshot "options" "zzz" = Some (PInt 1) /\
  snapshot_value sample_snapshot "options" "zzz" = None /\
  (forall (def : property) (key : string),
     In def property_table -> p_abbrev def = Some key ->
     snapshot_value sample_snapshot (p_source def) key
     = snapshot_value extended_snapshot (p_source def) key) /\
  exists ctl1 c1' ctl2 c2',
    OpenSprinklerController.new sample_snapshot OpenSprinklerController.class_attributes
      = (Returned ctl1, c1') /\
    OpenSprinklerController.new extended_snapshot OpenSprinklerController.class_attributes
      = (Returned ctl2, c2') /\
    controller_properties ctl1 = controller_properties ctl2.
Proof.
  assert (forall (def : property) (key : string),
            In def property_table -> p_abbrev def = Some key ->
            snapshot_value sample_snapshot (p_source def) key
            = snapshot_value extended_snapshot (p_source def) key) as Hagree.
  { intros def key Hin Hkey. unfold property_table in Hin. simpl in Hin.
    repeat (destruct Hin as [<-|Hin];
            [first [discriminate Hkey
                   | injection Hkey as <-; vm_compute; reflexivity]|]).
    contradiction. }
  split; [vm_compute; reflexivity|]. split; [vm_compute; reflexivity|].
  split; [exact Hagree|].
  apply (registry_reads_declared_keys_only sample_snapshot extended_snapshot
           OpenSprinklerController.class_attributes OpenSprinklerController.class_attributes).
  exact Hagree.
Defined.

(** X18. The names of the registry are fixed and distinct: for every
    snapshot, and after any sequence of [setProperty] calls on the
    controller, the listing of [getProperties] has the names of the table in
    the order of the table, 73 of them, no name twice. *)
Theorem registry_names_stay_unique
    (myDict : snapshot) (c : class_lists) (writes : list (string * pyval)) :
  exists ctl c',
    OpenSprinklerController.new myDict c = (Returned ctl, c') /\
    map fst (getProperties (controller_properties (apply_writes ctl writes)))
      = map p_name property_table /\
    length (getProperties (controller_properties (apply_writes ctl writes))) = 73%nat /\
    List.NoDup (map fst (getProperties (controller_properties (apply_writes ctl writes)))).
Proof.
  destruct (new_returns myDict c) as (ctl & c' & Hnew & Hprops).
  exists ctl, c'. split; [exact Hnew|].
  assert (map fst (getProperties (controller_properties (apply_writes ctl writes)))
          = map p_name property_table) as Hnames.
  { rewrite RegistryInvariants.listing_names, RegistryInvariants.apply_writes_names.
    rewrite Hprops. apply RegistryInvariants.resolved_names. }
  split; [exact Hnames|]. split.
  - rewrite <- (length_map fst), Hnames, length_map. reflexivity.
  - rewrite Hnames. apply RegistryInvariants.table_names_distinct.
Qed.

(** X19. When [status.nstations] is there and is not a number (a text, a
    list, [null]), no station is appended: the class lists come back as
    they were, and the constructor still returns a controller. *)
Theorem non_numeric_station_count_builds_no_station
    (myDict : snapshot) (c : class_lists) (v : pyval) :
  snapshot_value myDict "status" "nstations" = Some v ->
  Py.as_int v = None ->
  exists ctl, OpenSprinklerController.new myDict c = (Returned ctl, c).
Proof.
  intros Hn Hv. rewrite ConstructorFacts.new_unfold.
  destruct (snapshot_value myDict "settings" "en") as [en|] eqn:Hen.
  - rewrite (ConstructorFacts.build_lists_present _ _ _ Hen).
    set (h1 := OpenSprinklerController.assign_enabled _ _).
    unfold bind.
    destruct (RegistryInvariants.build_stations_bad_bound myDict v h1 Hn Hv) as [e He].
    rewrite He. eexists. reflexivity.
  - rewrite (ConstructorFacts.build_lists_absent _ _ Hen). eexists. reflexivity.
Qed.

Lemma non_numeric_station_count_builds_no_station_witness :
  snapshot_value text_count_snapshot "status" "nstations" = Some (PStr "3") /\
  Py.as_int (PStr "3") = None /\
  exists ctl,
    OpenSprinklerController.new text_count_snapshot OpenSprinklerController.class_attributes
    = (Returned ctl, OpenSprinklerController.class_attributes).
Proof.
  split; [vm_compute; reflexivity|]. split; [reflexivity|].
  apply (non_numeric_station_count_builds_no_station text_count_snapshot
           OpenSprinklerController.class_attributes (PStr "3")).
  - vm_compute. reflexivity.
  - reflexivity.
Defined.
